(** * Goal Tracker: layout engine and calendar mapping

  A shallow embedding of [goal_tracker.py]: the [LayoutManager] class
  (row geometry, week/quarter/month mapping), the month scan of
  [GoalTrackerPDF.draw_monthly_column] and the date computation of
  [GoalTrackerPDF.draw_weekly_column].

  Conventions.
  - Python [int] is [Z]; [//] is floor division ([Z.div]).
  - Python [float] is modelled by exact rationals [Q]: the arithmetic has
    the shape of the source, rounding is not modelled.  Equalities between
    lengths are therefore [Qeq] ([==]).
  - A call either returns or raises: [Py.result]. *)

From Stdlib Require Import ZArith QArith Qminmax Lia Lqa String.
From stdpp Require Import base gmap strings list pretty.

Local Open Scope Z_scope.

(** ** Python primitives *)

Module Py.

Inductive exn : Set :=
| ZeroDivisionError
| IndexError
| KeyError
| ValueError
| OverflowError.

Inductive result (A : Type) : Type :=
| Ok (a : A)
| Raise (e : exn).
Arguments Ok {A} a.
Arguments Raise {A} e.

Definition bind {A B} (c : result A) (k : A -> result B) : result B :=
  match c with
  | Ok a => k a
  | Raise e => Raise e
  end.

(** The call ends in an exception. *)
Definition raises {A} (c : result A) : Prop := exists e, c = Raise e.

#[global] Instance exn_eq_dec : EqDecision exn.
Proof. solve_decision. Defined.

#[global] Instance result_eq_dec {A} `{EqDecision A} : EqDecision (result A).
Proof. solve_decision. Defined.

(** [a // b] on integers. *)
Definition floordiv (a b : Z) : result Z :=
  if Z.eqb b 0 then Raise ZeroDivisionError else Ok (a / b).

(** [a / b] on floats. *)
Definition truediv (a b : Q) : result Q :=
  if Qeq_bool b 0 then Raise ZeroDivisionError else Ok (a / b)%Q.

(** The builtin [min(a, b)]: [b] replaces [a] only when [b < a]. *)
Definition fmin (a b : Q) : Q := if Qle_bool a b then a else b.

(** [l[i]], with Python's negative indices. *)
Definition getitem {A} (l : list A) (i : Z) : result A :=
  let n := Z.of_nat (length l) in
  let j := if i <? 0 then i + n else i in
  if (0 <=? j) && (j <? n)
  then match l !! Z.to_nat j with
       | Some a => Ok a
       | None => Raise IndexError
       end
  else Raise IndexError.

(** [range(lo, hi)]. *)
Definition range (lo hi : Z) : list Z := seqZ lo (hi - lo).

(** [str(n)] for an integer, as used by an f-string. *)
Definition str (n : Z) : string := pretty n.

(** A [for] loop threading a state through a body that may raise. *)
Fixpoint for_each {A S} (body : S -> A -> result S) (xs : list A) (s : S)
  : result S :=
  match xs with
  | [] => Ok s
  | x :: xs' => bind (body s x) (for_each body xs')
  end.

(** [d[k]] on a dict: a missing key raises [KeyError]. *)
Definition dict_getitem `{Countable K} {V} (d : gmap K V) (k : K) : result V :=
  match d !! k with
  | Some v => Ok v
  | None => Raise KeyError
  end.

(** [d.get(k, fallback)]. *)
Definition dict_get `{Countable K} {V} (d : gmap K V) (k : K) (fallback : V)
  : V :=
  match d !! k with
  | Some v => v
  | None => fallback
  end.

(** Truth value of a number: [if x:] holds unless [x] is zero; [True] and
    [False] are the numbers 1 and 0. *)
Definition truthy (x : Q) : bool := negb (Qeq_bool x 0).

End Py.

Import Py.

#[global] Instance result_ret : MRet result := @Ok.
#[global] Instance result_bind : MBind result := fun A B k c => Py.bind c k.

(** [reportlab.lib.units.inch]: points per inch. *)
Definition inch : Q := 72.

(** ** Configuration records *)

Record PageConfig := {
width : Q;
height : Q;
top_margin : Q;
bottom_margin : Q;
left_margin : Q;
right_margin : Q
}.

Record FontConfig := {
  family : string;
  title_size : Z;
  goal_line_size : Z;
  quarter_label_size : Z;
  month_label_size : Z;
  week_number_size : Z
}.

(** ** class LayoutManager *)

Module LayoutManager.

Definition WEEKS_IN_YEAR : Z := 52.
Definition WEEKS_PER_QUARTER : Z := 13.
Definition WEEKS_PER_MONTH : Z := 4.
Definition MONTHS_IN_YEAR : Z := 12.
Definition QUARTERS_IN_YEAR : Z := 4.
Definition CATCH_UP_WEEKS : gset Z := {[13; 26; 39; 52]}.

Record t := {
  page_config : PageConfig;
  layout_config : gmap string Q;
  available_width : Q;
  available_height : Q;
  calculated_row_height : Q
}.

(** The three attributes set by [_calculate_dimensions]:
    [(available_width, available_height, calculated_row_height)]. *)
Definition _calculate_dimensions (pc : PageConfig) : result (Q * Q * Q) :=
  let available_width := (width pc - left_margin pc - right_margin pc)%Q in
  let bonus_height := fmin ((1 # 10) * inch)%Q (bottom_margin pc * (1 # 2))%Q in
  let available_height :=
    (height pc - top_margin pc - bottom_margin pc + bonus_height)%Q in
  let header_height := ((6 # 10) * inch)%Q in
  let available_for_rows := (available_height - header_height)%Q in
  calculated_row_height ←
    truediv available_for_rows (inject_Z WEEKS_IN_YEAR);
  Ok (available_width, available_height, calculated_row_height).

Definition __init__ (pc : PageConfig) (lc : gmap string Q) : result t :=
  '(aw, ah, rh) ← _calculate_dimensions pc;
  Ok {| page_config := pc; layout_config := lc;
        available_width := aw; available_height := ah;
        calculated_row_height := rh |}.

Definition get_row_height (self : t) : Q := calculated_row_height self.

Definition get_header_height (self : t) : Q := ((5 # 10) * inch)%Q.

Definition get_week_y_position (self : t) (week_number : Z) : Q :=
  let row_height := get_row_height self in
  let header_height := get_header_height self in
  (height (page_config self) - top_margin (page_config self) - header_height
   - inject_Z (week_number - 1) * row_height)%Q.

Definition get_quarter_for_week (week_number : Z) : result Z :=
  q ← floordiv (week_number - 1) WEEKS_PER_QUARTER;
  Ok (q + 1).

Definition is_catch_up_week (week_number : Z) : bool :=
  bool_decide (week_number ∈ CATCH_UP_WEEKS).

(** [week_number in range(start, stop)]. *)
Definition in_range (week_number : Z) (r : Z * Z) : bool :=
  (fst r <=? week_number) && (week_number <? snd r).

(** The dict literal of [get_month_for_week], in insertion order. *)
Definition month_mapping : list ((Z * Z) * Z) :=
  [ ((1, 5), 1); ((5, 9), 2); ((9, 13), 3);
    ((14, 18), 4); ((18, 22), 5); ((22, 26), 6);
    ((27, 31), 7); ((31, 35), 8); ((35, 39), 9);
    ((40, 44), 10); ((44, 48), 11); ((48, 52), 12) ].

Fixpoint first_month (week_number : Z) (items : list ((Z * Z) * Z)) : Z :=
  match items with
  | [] => -1
  | (week_range, month) :: rest =>
      if in_range week_number week_range then month
      else first_month week_number rest
  end.

Definition get_month_for_week (week_number : Z) : Z :=
  if bool_decide (week_number ∈ CATCH_UP_WEEKS) then -1
  else first_month week_number month_mapping.

Definition abbreviations : list string :=
  ["Jan"; "Feb"; "Mar"; "Apr"; "May"; "Jun";
   "Jul"; "Aug"; "Sep"; "Oct"; "Nov"; "Dec"]%string.

Definition get_month_abbreviation (month_number : Z) : result string :=
  if (1 <=? month_number) && (month_number <=? 12)
  then getitem abbreviations (month_number - 1)
  else Ok ""%string.

Definition get_column_x_positions (self : t) : result (gmap string Q) :=
  q ← dict_getitem (layout_config self) "quarterly_column_width"%string;
  let col_width_q := (q * inch)%Q in
  m ← dict_getitem (layout_config self) "monthly_column_width"%string;
  let col_width_m := (m * inch)%Q in
  w ← dict_getitem (layout_config self) "weekly_column_width"%string;
  let col_width_w := (w * inch)%Q in
  cb ← dict_getitem (layout_config self) "checkbox_size"%string;
  let col_width_checkbox := (cb * inch)%Q in
  let total_grid_width :=
    (col_width_q + col_width_m + col_width_w + col_width_checkbox)%Q in
  let x_start := ((width (page_config self) - total_grid_width) / 2)%Q in
  let x_quarterly := x_start in
  let x_monthly := (x_quarterly + col_width_q)%Q in
  let x_weekly := (x_monthly + col_width_m)%Q in
  let x_checkbox := (x_weekly + col_width_w)%Q in
  Ok {[ "quarterly"%string := x_quarterly; "monthly"%string := x_monthly;
        "weekly"%string := x_weekly; "checkbox"%string := x_checkbox ]}.

Definition get_column_widths (self : t) : result (gmap string Q) :=
  q ← dict_getitem (layout_config self) "quarterly_column_width"%string;
  m ← dict_getitem (layout_config self) "monthly_column_width"%string;
  w ← dict_getitem (layout_config self) "weekly_column_width"%string;
  cb ← dict_getitem (layout_config self) "checkbox_size"%string;
  Ok {[ "quarterly"%string := (q * inch)%Q; "monthly"%string := (m * inch)%Q;
        "weekly"%string := (w * inch)%Q; "checkbox"%string := (cb * inch)%Q ]}.

End LayoutManager.

(** ** The standard library's [datetime], restricted to what the program
    uses: dates at midnight, day arithmetic, [weekday] and [isocalendar].
    The definitions follow the reference implementation of the module
    (proleptic Gregorian ordinals, 0001-01-01 is day 1). *)

Module Datetime.

Definition MINYEAR : Z := 1.
Definition MAXYEAR : Z := 9999.
Definition _MAXORDINAL : Z := 3652059.

Definition _DAYS_IN_MONTH : list Z :=
  [-1; 31; 28; 31; 30; 31; 30; 31; 31; 30; 31; 30; 31].

Definition _DAYS_BEFORE_MONTH : list Z :=
  [-1; 0; 31; 59; 90; 120; 151; 181; 212; 243; 273; 304; 334].

Definition _is_leap (year : Z) : bool :=
  (year mod 4 =? 0) && (negb (year mod 100 =? 0) || (year mod 400 =? 0)).

Definition _days_before_year (year : Z) : Z :=
  let y := year - 1 in
  y * 365 + y / 4 - y / 100 + y / 400.

Definition _days_in_month (year month : Z) : Z :=
  if (month =? 2) && _is_leap year then 29
  else _DAYS_IN_MONTH !!! Z.to_nat month.

Definition _days_before_month (year month : Z) : Z :=
  _DAYS_BEFORE_MONTH !!! Z.to_nat month
  + (if (2 <? month) && _is_leap year then 1 else 0).

Definition _ymd2ord (year month day : Z) : Z :=
  _days_before_year year + _days_before_month year month + day.

Definition _DI400Y : Z := Eval cbv in _days_before_year 401.
Definition _DI100Y : Z := Eval cbv in _days_before_year 101.
Definition _DI4Y : Z := Eval cbv in _days_before_year 5.

(** Month and day of the [n]-th day (from 0) of a year. *)
Definition _month_day (n : Z) (leapyear : bool) : Z * Z :=
  let month := Z.shiftr (n + 50) 5 in
  let preceding :=
    _DAYS_BEFORE_MONTH !!! Z.to_nat month
    + (if (2 <? month) && leapyear then 1 else 0) in
  if n <? preceding
  then
    let month' := month - 1 in
    let preceding' :=
      preceding - (_DAYS_IN_MONTH !!! Z.to_nat month'
                   + (if (month' =? 2) && leapyear then 1 else 0)) in
    (month', n - preceding' + 1)
  else (month, n - preceding + 1).

Definition _ord2ymd (n : Z) : Z * Z * Z :=
  let n := n - 1 in
  let n400 := n / _DI400Y in
  let n := n mod _DI400Y in
  let year := n400 * 400 + 1 in
  let n100 := n / _DI100Y in
  let n := n mod _DI100Y in
  let n4 := n / _DI4Y in
  let n := n mod _DI4Y in
  let n1 := n / 365 in
  let n := n mod 365 in
  let year := year + n100 * 100 + n4 * 4 + n1 in
  if (n1 =? 4) || (n100 =? 4) then (year - 1, 12, 31)
  else
    let leapyear := (n1 =? 3) && (negb (n4 =? 24) || (n100 =? 3)) in
    let '(month, day) := _month_day n leapyear in
    (year, month, day).

(** A [datetime] at 00:00:00; the time fields never change in the program. *)
Record t := { year : Z; month : Z; day : Z }.

(** The constructor [datetime(year, month, day)] with its field checks. *)
Definition datetime (y m d : Z) : result t :=
  if negb ((MINYEAR <=? y) && (y <=? MAXYEAR)) then Raise ValueError
  else if negb ((1 <=? m) && (m <=? 12)) then Raise ValueError
  else if negb ((1 <=? d) && (d <=? _days_in_month y m)) then Raise ValueError
  else Ok {| year := y; month := m; day := d |}.

Definition toordinal (self : t) : Z :=
  _ymd2ord (year self) (month self) (day self).

Definition of_ordinal (n : Z) : t :=
  let '(y, m, d) := _ord2ymd n in {| year := y; month := m; day := d |}.

(** [timedelta(days=n)], as a number of days. *)
Definition timedelta (days : Z) : result Z :=
  if (-999999999 <=? days) && (days <=? 999999999) then Ok days
  else Raise OverflowError.

(** [self + delta]. *)
Definition add (self : t) (delta : Z) : result t :=
  let days := toordinal self + delta in
  if (0 <? days) && (days <=? _MAXORDINAL) then Ok (of_ordinal days)
  else Raise OverflowError.

(** [self - delta], which is [self + (-delta)]. *)
Definition sub (self : t) (delta : Z) : result t := add self (- delta).

(** Monday is 0, Sunday is 6. *)
Definition weekday (self : t) : Z := (toordinal self + 6) mod 7.

Definition _isoweek1monday (y : Z) : Z :=
  let THURSDAY := 3 in
  let firstday := _ymd2ord y 1 1 in
  let firstweekday := (firstday + 6) mod 7 in
  let week1monday := firstday - firstweekday in
  if THURSDAY <? firstweekday then week1monday + 7 else week1monday.

(** [self.isocalendar()]: (ISO year, ISO week, ISO weekday). *)
Definition isocalendar (self : t) : Z * Z * Z :=
  let y := year self in
  let week1monday := _isoweek1monday y in
  let today := _ymd2ord (year self) (month self) (day self) in
  let week := (today - week1monday) / 7 in
  let d := (today - week1monday) mod 7 in
  if week <? 0 then
    let y := y - 1 in
    let week1monday := _isoweek1monday y in
    let week := (today - week1monday) / 7 in
    let d := (today - week1monday) mod 7 in
    (y, week + 1, d + 1)
  else if 52 <=? week then
    if _isoweek1monday (y + 1) <=? today then (y + 1, 1, d + 1)
    else (y, week + 1, d + 1)
  else (y, week + 1, d + 1).

End Datetime.

(** ** The canvas: the drawing calls made on it, in order

    The reportlab canvas is an external collaborator; it is modelled by the
    record of the calls it receives (what the test suite's [Mock] keeps).
    A renderer is a computation that extends this record and returns or
    raises; on a raise the calls made so far stay on the canvas. *)

Module Canvas.

Inductive call : Type :=
| setLineWidth (w : Q)
| setStrokeColorRGB (r g b : Q)
| setFillColorRGB (r g b : Q)
| setDash (pattern : list Z)
| line (x1 y1 x2 y2 : Q)
| rect (x y w h : Q) (stroke fill : bool)
| setFont (name : string) (size : Z)
| drawString (x y : Q) (text : string)
| drawRightString (x y : Q) (text : string)
| save.

Definition t : Type := list call.

Definition M (A : Type) : Type := t -> result A * t.

Definition ret {A} (a : A) : M A := fun c => (Ok a, c).

Definition bind {A B} (m : M A) (k : A -> M B) : M B :=
  fun c =>
    match m c with
    | (Ok a, c') => k a c'
    | (Raise e, c') => (Raise e, c')
    end.

(** A computation that does not touch the canvas. *)
Definition lift {A} (r : result A) : M A := fun c => (r, c).

(** One call on the canvas. *)
Definition emit (k : call) : M unit := fun c => (Ok tt, c ++ [k]).

(** [for x in xs: body(x)]. *)
Fixpoint for_ {A} (xs : list A) (body : A -> M unit) : M unit :=
  match xs with
  | [] => ret tt
  | x :: xs' => bind (body x) (fun _ => for_ xs' body)
  end.

(** A [for] loop that also updates a local variable. *)
Fixpoint for_acc {A S} (xs : list A) (s : S) (body : S -> A -> M S) : M S :=
  match xs with
  | [] => ret s
  | x :: xs' => bind (body s x) (fun s' => for_acc xs' s' body)
  end.

End Canvas.

#[global] Instance canvas_ret : MRet Canvas.M := @Canvas.ret.
#[global] Instance canvas_bind : MBind Canvas.M :=
  fun A B k m => Canvas.bind m k.

(** ** class DrawingHelper *)

Module DrawingHelper.

(** [[x / 255 for x in color]]. *)
Definition unit_rgb (color : Z * Z * Z) : Q * Q * Q :=
  let '(r, g, b) := color in
  (inject_Z r / 255, inject_Z g / 255, inject_Z b / 255)%Q.

(** [if dash:] holds for a non-empty list only. *)
Definition has_dash (dash : option (list Z)) : bool :=
  match dash with
  | Some (_ :: _) => true
  | _ => false
  end.

Definition draw_line (x1 y1 x2 y2 : Q) (stroke_width : Q)
    (color : Z * Z * Z) (dash : option (list Z)) : Canvas.M unit :=
  Canvas.emit (Canvas.setLineWidth stroke_width);;
  let '(r, g, b) := unit_rgb color in
  Canvas.emit (Canvas.setStrokeColorRGB r g b);;
  (if has_dash dash
   then Canvas.emit (Canvas.setDash (default [] dash))
   else mret tt);;
  Canvas.emit (Canvas.line x1 y1 x2 y2);;
  (if has_dash dash then Canvas.emit (Canvas.setDash []) else mret tt);;
  Canvas.emit (Canvas.setStrokeColorRGB 0 0 0).

Definition draw_rectangle (x y width height : Q) (stroke_width : Q)
    (color : Z * Z * Z) : Canvas.M unit :=
  Canvas.emit (Canvas.setLineWidth stroke_width);;
  let '(r, g, b) := unit_rgb color in
  Canvas.emit (Canvas.setStrokeColorRGB r g b);;
  Canvas.emit (Canvas.rect x y width height true false);;
  Canvas.emit (Canvas.setStrokeColorRGB 0 0 0).

Definition draw_text (text : string) (x y : Q) (font : string) (size : Z)
    (color : Z * Z * Z) (align : string) : Canvas.M unit :=
  Canvas.emit (Canvas.setFont font size);;
  let '(r, g, b) := unit_rgb color in
  Canvas.emit (Canvas.setFillColorRGB r g b);;
  (if String.eqb align "right"
   then Canvas.emit (Canvas.drawRightString x y text)
   else Canvas.emit (Canvas.drawString x y text));;
  Canvas.emit (Canvas.setFillColorRGB 0 0 0).

End DrawingHelper.

(** ** class GoalTrackerConfig

    The parsed YAML document, read at the types the program uses: a section
    or an entry that is absent is [None] (or missing from the dict), entries
    the program never reads are left out. *)

Module GoalTrackerConfig.

Record margins_section := {
  top : option Q;
  bottom : option Q;
  left : option Q;
  right : option Q
}.

Record page_section := { margins : option margins_section }.

Record fonts_section := {
  fonts_family : option string;
  fonts_title_size : option Z;
  fonts_goal_line_size : option Z;
  fonts_quarter_label_size : option Z;
  fonts_month_label_size : option Z;
  fonts_week_number_size : option Z
}.

Record output_section := {
  directory : option string;
  filename : option string
}.

Record t := {
  page : option page_section;
  fonts : option fonts_section;
  colors : option (gmap string (Z * Z * Z));
  layout : option (gmap string Q);
  output : option output_section
}.

(** [d[key]] for an entry of a section. *)
Definition entry {A} (v : option A) : result A :=
  match v with
  | Some a => Ok a
  | None => Raise KeyError
  end.

(** The five [key not in self.config] tests, in order. *)
Definition _validate_config (config : t) : result unit :=
  if negb (bool_decide (is_Some (page config))) then Raise ValueError
  else if negb (bool_decide (is_Some (fonts config))) then Raise ValueError
  else if negb (bool_decide (is_Some (colors config))) then Raise ValueError
  else if negb (bool_decide (is_Some (layout config))) then Raise ValueError
  else if negb (bool_decide (is_Some (output config))) then Raise ValueError
  else Ok tt.

(** The constructor, after the file has been read and parsed. *)
Definition __init__ (config : t) : result t :=
  _validate_config config;;
  Ok config.

Definition get_page_config (self : t) : result PageConfig :=
  page_cfg ← entry (page self);
  margins ← entry (margins page_cfg);
  mt ← entry (top margins);
  mb ← entry (bottom margins);
  ml ← entry (left margins);
  mr ← entry (right margins);
  Ok {| width := (85 # 10) * inch; height := 11 * inch;
        top_margin := mt * inch; bottom_margin := mb * inch;
        left_margin := ml * inch; right_margin := mr * inch |}%Q.

Definition get_font_config (self : t) : result FontConfig :=
  fonts ← entry (fonts self);
  f ← entry (fonts_family fonts);
  ts ← entry (fonts_title_size fonts);
  gs ← entry (fonts_goal_line_size fonts);
  qs ← entry (fonts_quarter_label_size fonts);
  ms ← entry (fonts_month_label_size fonts);
  ws ← entry (fonts_week_number_size fonts);
  Ok {| family := f; title_size := ts; goal_line_size := gs;
        quarter_label_size := qs; month_label_size := ms;
        week_number_size := ws |}.

Definition get_colors (self : t) : gmap string (Z * Z * Z) :=
  let colors := default ∅ (colors self) in
  let grid_line := dict_get colors "grid_line"%string (0, 0, 0) in
  let light_grid := dict_get colors "light_grid"%string (180, 180, 180) in
  let text := dict_get colors "text"%string (0, 0, 0) in
  let week_number := dict_get colors "week_number"%string light_grid in
  let row_stripe := dict_get colors "row_stripe"%string (230, 230, 230) in
  {[ "grid_line"%string := grid_line; "light_grid"%string := light_grid;
     "text"%string := text; "week_number"%string := week_number;
     "row_stripe"%string := row_stripe ]}.

Definition get_layout (self : t) : result (gmap string Q) :=
  entry (layout self).

End GoalTrackerConfig.

(** ** class GoalTrackerPDF: the calendar computations of the column
    renderers *)

Module GoalTrackerPDF.

(** *** The month scan of [draw_monthly_column] *)

Record month_scan := {
  current_month : Z;
  month_week_count : Z;
  month_lines : gmap Z (list Z)
}.

Definition month_scan_start : month_scan := {|
  current_month := 1;
  month_week_count := 0;
  month_lines :=
    {[ 1 := []; 2 := []; 3 := []; 4 := []; 5 := []; 6 := [];
       7 := []; 8 := []; 9 := []; 10 := []; 11 := []; 12 := [] ]}
|}.

(** One iteration of the scan; [month_lines[current_month]] raises
    [KeyError] on a missing key. *)
Definition month_scan_body (st : month_scan) (week : Z) : result month_scan :=
  if LayoutManager.is_catch_up_week week then Ok st
  else
    let count := month_week_count st + 1 in
    let '(cur, count) :=
      if LayoutManager.WEEKS_PER_MONTH <? count
      then (current_month st + 1, 1)
      else (current_month st, count) in
    match month_lines st !! cur with
    | None => Raise KeyError
    | Some weeks =>
        Ok {| current_month := cur;
              month_week_count := count;
              month_lines := <[cur := weeks ++ [week]]> (month_lines st) |}
    end.

Definition build_month_lines : result (gmap Z (list Z)) :=
  st ← for_each month_scan_body
         (range 1 (LayoutManager.WEEKS_IN_YEAR + 1)) month_scan_start;
  Ok (month_lines st).

(** The month a week is assigned to by the sequential partition: the month
    whose list holds the week, or the catch-up sentinel when none does. *)
Fixpoint month_holding (lines : gmap Z (list Z)) (months : list Z) (week : Z)
  : Z :=
  match months with
  | [] => -1
  | m :: rest =>
      if bool_decide (week ∈ default [] (lines !! m)) then m
      else month_holding lines rest week
  end.

Definition sequential_month_for_week (week : Z) : result Z :=
  lines ← build_month_lines;
  Ok (month_holding lines (range 1 (LayoutManager.MONTHS_IN_YEAR + 1)) week).

(** *** The date range of a row in [draw_weekly_column] *)

(** Before the loop: the Monday of ISO week 1 and the first ISO week shown. *)
Definition iso_anchor (year : Z) : result (Datetime.t * Z) :=
  jan4 ← Datetime.datetime year 1 4;
  let days_since_monday := Datetime.weekday jan4 in
  back ← Datetime.timedelta days_since_monday;
  iso_week1_monday ← Datetime.sub jan4 back;
  dec28 ← Datetime.datetime year 12 28;
  let has_iso_53 := (Datetime.isocalendar dec28).1.2 =? 53 in
  let start_iso_week := if has_iso_53 then 2 else 1 in
  Ok (iso_week1_monday, start_iso_week).

(** The loop body: Monday, Friday and the label of one row. *)
Definition row_date_range (iso_week1_monday : Datetime.t)
    (start_iso_week row_index : Z) : result (Datetime.t * Datetime.t * string) :=
  let iso_week_num := start_iso_week + row_index - 1 in
  ahead ← Datetime.timedelta ((iso_week_num - 1) * 7);
  week_monday ← Datetime.add iso_week1_monday ahead;
  four ← Datetime.timedelta 4;
  week_friday ← Datetime.add week_monday four;
  let day_range :=
    str (Datetime.day week_monday) +:+ "-" +:+ str (Datetime.day week_friday) in
  Ok (week_monday, week_friday, day_range).

Definition date_range_for_row (year row_index : Z)
  : result (Datetime.t * Datetime.t * string) :=
  '(iso_week1_monday, start_iso_week) ← iso_anchor year;
  row_date_range iso_week1_monday start_iso_week row_index.

(** The labels drawn by the loop, in row order. *)
Definition weekly_labels (year : Z) : result (list string) :=
  '(iso_week1_monday, start_iso_week) ← iso_anchor year;
  for_each
    (fun labels row_index =>
       '(_, _, day_range) ← row_date_range iso_week1_monday start_iso_week row_index;
       Ok (labels ++ [day_range]))
    (range 1 (LayoutManager.WEEKS_IN_YEAR + 1)) [].

(** *** The generator object and its renderers *)

Record t := {
  config : GoalTrackerConfig.t;
  page_config : PageConfig;
  font_config : FontConfig;
  colors : gmap string (Z * Z * Z);
  layout_config : gmap string Q;
  layout : LayoutManager.t;
  year : Z
}.

(** The constructor; the default of [year], the current year, is left to
    the caller. *)
Definition __init__ (config : GoalTrackerConfig.t) (year : Z) : result t :=
  page_config ← GoalTrackerConfig.get_page_config config;
  font_config ← GoalTrackerConfig.get_font_config config;
  let colors := GoalTrackerConfig.get_colors config in
  layout_config ← GoalTrackerConfig.get_layout config;
  layout ← LayoutManager.__init__ page_config layout_config;
  Ok {| config := config; page_config := page_config;
        font_config := font_config; colors := colors;
        layout_config := layout_config; layout := layout; year := year |}.

Definition draw_header (self : t) : Canvas.M unit :=
  let header_top_y :=
    (height (page_config self) - top_margin (page_config self))%Q in
  col_positions ←
    Canvas.lift (LayoutManager.get_column_x_positions (layout self));
  col_widths ← Canvas.lift (LayoutManager.get_column_widths (layout self));
  grid_left ← Canvas.lift (dict_getitem col_positions "quarterly"%string);
  x_checkbox ← Canvas.lift (dict_getitem col_positions "checkbox"%string);
  w_checkbox ← Canvas.lift (dict_getitem col_widths "checkbox"%string);
  let grid_right := (x_checkbox + w_checkbox)%Q in
  let grid_width := (grid_right - grid_left)%Q in
  let left_w := (grid_width * (4 # 10))%Q in
  let right_x := (grid_left + left_w)%Q in
  let pad_x := ((1 # 10) * inch)%Q in
  let title_y := (header_top_y - (10 # 100) * inch)%Q in
  color ← Canvas.lift (dict_getitem (colors self) "text"%string);
  DrawingHelper.draw_text ("Goal Tracker for " +:+ str (year self))
    (grid_left + pad_x)%Q title_y "Helvetica-Bold"
    (goal_line_size (font_config self)) color "left";;
  let goal_label_y := title_y in
  color ← Canvas.lift (dict_getitem (colors self) "text"%string);
  DrawingHelper.draw_text "Goal:" (right_x + pad_x)%Q goal_label_y
    (family (font_config self)) (goal_line_size (font_config self))
    color "left";;
  let goal_line_start := (right_x + pad_x + (6 # 10) * inch)%Q in
  let goal_line_end := (grid_right - pad_x)%Q in
  let line1_y := goal_label_y in
  let line_spacing := ((5 # 100) * inch)%Q in
  let line2_y := (title_y - (15 # 100) * inch - line_spacing)%Q in
  color ← Canvas.lift (dict_getitem (colors self) "text"%string);
  DrawingHelper.draw_line goal_line_start line1_y goal_line_end line1_y
    (5 # 10) color None;;
  color ← Canvas.lift (dict_getitem (colors self) "text"%string);
  DrawingHelper.draw_line goal_line_start line2_y goal_line_end line2_y
    (5 # 10) color None.

(** The stripes of [draw_grid], painted when [show_row_stripes] is set. *)
Definition draw_grid_stripes (self : t) (layout_config : gmap string Q)
    (col_positions col_widths : gmap string Q) (row_height : Q)
  : Canvas.M unit :=
  if truthy (dict_get layout_config "show_row_stripes"%string 0%Q)
  then
    stripe ← Canvas.lift (dict_getitem (colors self) "row_stripe"%string);
    let '(sr, sg, sb) := DrawingHelper.unit_rgb stripe in
    Canvas.for_ (range 1 (LayoutManager.WEEKS_IN_YEAR + 1)) (fun week =>
      let y := LayoutManager.get_week_y_position (layout self) week in
      let month := LayoutManager.get_month_for_week week in
      (if (0 <? month) && (month mod 2 =? 0)
       then
         Canvas.emit (Canvas.setFillColorRGB sr sg sb);;
         x ← Canvas.lift (dict_getitem col_positions "monthly"%string);
         w ← Canvas.lift (dict_getitem col_widths "monthly"%string);
         Canvas.emit (Canvas.rect x (y - row_height)%Q w row_height false true);;
         Canvas.emit (Canvas.setFillColorRGB 0 0 0)
       else mret tt);;
      (if week mod 2 =? 0
       then
         Canvas.emit (Canvas.setFillColorRGB sr sg sb);;
         x ← Canvas.lift (dict_getitem col_positions "weekly"%string);
         w ← Canvas.lift (dict_getitem col_widths "weekly"%string);
         Canvas.emit (Canvas.rect x (y - row_height)%Q w row_height false true);;
         Canvas.emit (Canvas.setFillColorRGB 0 0 0)
       else mret tt))
  else mret tt.

(** The line under each week row. *)
Definition draw_grid_week_lines (self : t) (layout_config : gmap string Q)
    (col_positions col_widths : gmap string Q) (row_height : Q)
  : Canvas.M unit :=
  let weekly_line_weight :=
    dict_get layout_config "weekly_line_weight"%string (5 # 10) in
  Canvas.for_ (range 1 (LayoutManager.WEEKS_IN_YEAR + 1)) (fun week =>
    let y := LayoutManager.get_week_y_position (layout self) week in
    let line_y := (y - row_height)%Q in
    x_weekly ← Canvas.lift (dict_getitem col_positions "weekly"%string);
    let line_start := (x_weekly + (1 # 10) * inch)%Q in
    let line_start := (line_start + (125 # 1000) * inch)%Q in
    let line_start := (line_start + (1 # 10) * inch)%Q in
    x_checkbox ← Canvas.lift (dict_getitem col_positions "checkbox"%string);
    w_checkbox ← Canvas.lift (dict_getitem col_widths "checkbox"%string);
    let line_end :=
      (x_checkbox + w_checkbox - (5 # 100) * inch - (125 # 1000) * inch
       + (625 # 10000) * inch)%Q in
    let line_end := (line_end - (125 # 1000) * inch)%Q in
    color ← Canvas.lift (dict_getitem (colors self) "text"%string);
    DrawingHelper.draw_line line_start line_y line_end line_y
      weekly_line_weight color None).

(** The box around each quarter. *)
Definition draw_grid_quarter_boxes (self : t)
    (col_positions col_widths : gmap string Q) (row_height : Q)
  : Canvas.M unit :=
  Canvas.for_ (range 1 (LayoutManager.QUARTERS_IN_YEAR + 1)) (fun quarter_num =>
    let start_week := (quarter_num - 1) * LayoutManager.WEEKS_PER_QUARTER + 1 in
    let end_week := start_week + LayoutManager.WEEKS_PER_QUARTER - 1 in
    let y_top := LayoutManager.get_week_y_position (layout self) start_week in
    let y_bottom :=
      (LayoutManager.get_week_y_position (layout self) end_week
       - row_height)%Q in
    x_left ← Canvas.lift (dict_getitem col_positions "quarterly"%string);
    x_checkbox ← Canvas.lift (dict_getitem col_positions "checkbox"%string);
    w_checkbox ← Canvas.lift (dict_getitem col_widths "checkbox"%string);
    let x_right := (x_checkbox + w_checkbox)%Q in
    color ← Canvas.lift (dict_getitem (colors self) "grid_line"%string);
    DrawingHelper.draw_rectangle x_left y_bottom (x_right - x_left)%Q
      (y_top - y_bottom)%Q 1 color).

(** The box around each month, from the same scan as the monthly column. *)
Definition draw_grid_month_boxes (self : t)
    (col_positions col_widths : gmap string Q) (row_height : Q)
  : Canvas.M unit :=
  month_lines ← Canvas.lift build_month_lines;
  Canvas.for_ (range 1 (LayoutManager.MONTHS_IN_YEAR + 1)) (fun month_num =>
    weeks ← Canvas.lift (dict_getitem month_lines month_num);
    match weeks with
    | [] => mret tt
    | _ =>
        first_week ← Canvas.lift (getitem weeks 0);
        last_week ← Canvas.lift (getitem weeks (-1));
        let y_top :=
          LayoutManager.get_week_y_position (layout self) first_week in
        let y_bottom :=
          (LayoutManager.get_week_y_position (layout self) last_week
           - row_height)%Q in
        x_left ← Canvas.lift (dict_getitem col_positions "monthly"%string);
        x_checkbox ← Canvas.lift (dict_getitem col_positions "checkbox"%string);
        w_checkbox ← Canvas.lift (dict_getitem col_widths "checkbox"%string);
        let x_right := (x_checkbox + w_checkbox)%Q in
        color ← Canvas.lift (dict_getitem (colors self) "grid_line"%string);
        DrawingHelper.draw_rectangle x_left y_bottom (x_right - x_left)%Q
          (y_top - y_bottom)%Q (75 # 100) color
    end).

Definition draw_grid (self : t) : Canvas.M unit :=
  col_positions ←
    Canvas.lift (LayoutManager.get_column_x_positions (layout self));
  col_widths ← Canvas.lift (LayoutManager.get_column_widths (layout self));
  let row_height := LayoutManager.get_row_height (layout self) in
  layout_config ← Canvas.lift (GoalTrackerConfig.get_layout (config self));
  x_checkbox ← Canvas.lift (dict_getitem col_positions "checkbox"%string);
  w_checkbox ← Canvas.lift (dict_getitem col_widths "checkbox"%string);
  draw_grid_stripes self layout_config col_positions col_widths row_height;;
  draw_grid_week_lines self layout_config col_positions col_widths row_height;;
  draw_grid_quarter_boxes self col_positions col_widths row_height;;
  draw_grid_month_boxes self col_positions col_widths row_height.

Definition draw_quarterly_column (self : t) : Canvas.M unit :=
  col_positions ←
    Canvas.lift (LayoutManager.get_column_x_positions (layout self));
  col_x ← Canvas.lift (dict_getitem col_positions "quarterly"%string);
  col_widths ← Canvas.lift (LayoutManager.get_column_widths (layout self));
  col_width ← Canvas.lift (dict_getitem col_widths "quarterly"%string);
  let row_height := LayoutManager.get_row_height (layout self) in
  layout_config ← Canvas.lift (GoalTrackerConfig.get_layout (config self));
  let label_padding_y :=
    (dict_get layout_config "label_padding_y"%string (7 # 100) * inch)%Q in
  let quarters := ["Q1"; "Q2"; "Q3"; "Q4"]%string in
  let lines_per_quarter := 6 in
  Canvas.for_ (range 1 (LayoutManager.QUARTERS_IN_YEAR + 1)) (fun quarter_num =>
    let start_week := (quarter_num - 1) * LayoutManager.WEEKS_PER_QUARTER + 1 in
    let y_start := LayoutManager.get_week_y_position (layout self) start_week in
    let y_label := (y_start - row_height / 2 - label_padding_y)%Q in
    label ← Canvas.lift (getitem quarters (quarter_num - 1));
    color ← Canvas.lift (dict_getitem (colors self) "text"%string);
    DrawingHelper.draw_text label (col_x + (1 # 10) * inch)%Q y_label
      (family (font_config self)) (quarter_label_size (font_config self))
      color "left";;
    Canvas.for_acc (range 0 lines_per_quarter) (y_start - row_height)%Q
      (fun y line_num =>
         if line_num =? 0 then mret (y - row_height)%Q
         else
           let line_x_start := (col_x + (5 # 100) * inch)%Q in
           let line_x_end := (col_x + col_width - (5 # 100) * inch)%Q in
           color ← Canvas.lift (dict_getitem (colors self) "text"%string);
           DrawingHelper.draw_line line_x_start y line_x_end y (5 # 10)
             color None;;
           mret (y - row_height)%Q);;
    mret tt).

Definition draw_monthly_column (self : t) : Canvas.M unit :=
  col_positions ←
    Canvas.lift (LayoutManager.get_column_x_positions (layout self));
  col_x ← Canvas.lift (dict_getitem col_positions "monthly"%string);
  col_widths ← Canvas.lift (LayoutManager.get_column_widths (layout self));
  col_width ← Canvas.lift (dict_getitem col_widths "monthly"%string);
  let row_height := LayoutManager.get_row_height (layout self) in
  layout_config ← Canvas.lift (GoalTrackerConfig.get_layout (config self));
  let label_padding_y :=
    (dict_get layout_config "label_padding_y"%string (7 # 100) * inch)%Q in
  month_lines ← Canvas.lift build_month_lines;
  Canvas.for_ (range 1 (LayoutManager.MONTHS_IN_YEAR + 1)) (fun month_num =>
    weeks ← Canvas.lift (dict_getitem month_lines month_num);
    match weeks with
    | [] => mret tt
    | _ =>
        first_week ← Canvas.lift (getitem weeks 0);
        let y_start :=
          LayoutManager.get_week_y_position (layout self) first_week in
        month_abbrev ←
          Canvas.lift (LayoutManager.get_month_abbreviation month_num);
        let y_label := (y_start - row_height / 2 - label_padding_y)%Q in
        color ← Canvas.lift (dict_getitem (colors self) "text"%string);
        DrawingHelper.draw_text month_abbrev (col_x + (1 # 10) * inch)%Q
          y_label (family (font_config self))
          (month_label_size (font_config self)) color "left";;
        Canvas.for_acc weeks (y_start - row_height)%Q
          (fun y _ =>
             let line_x_start := (col_x + (5 # 100) * inch)%Q in
             let line_x_end := (col_x + col_width - (5 # 100) * inch)%Q in
             color ← Canvas.lift (dict_getitem (colors self) "text"%string);
             DrawingHelper.draw_line line_x_start y line_x_end y (5 # 10)
               color None;;
             mret (y - row_height)%Q);;
        mret tt
    end).

(** The message written on a catch-up row. *)
Definition catch_up_text (quarter : Z) : string :=
  if quarter =? 4 then "Close out Q4. Set next year's goals."
  else if quarter =? 1 then "Close out Q1. Set Q2 goals."
  else "Close out Q" +:+ str quarter +:+ ". Set Q" +:+ str (quarter + 1)
       +:+ " goals.".

(** [stringWidth] is the canvas's text measure, a query that draws
    nothing. *)
Definition draw_weekly_column (stringWidth : string -> string -> Z -> Q)
    (self : t) : Canvas.M unit :=
  col_positions ←
    Canvas.lift (LayoutManager.get_column_x_positions (layout self));
  col_x ← Canvas.lift (dict_getitem col_positions "weekly"%string);
  col_widths ← Canvas.lift (LayoutManager.get_column_widths (layout self));
  col_width ← Canvas.lift (dict_getitem col_widths "weekly"%string);
  let row_height := LayoutManager.get_row_height (layout self) in
  layout_config ← Canvas.lift (GoalTrackerConfig.get_layout (config self));
  let label_padding_y :=
    (dict_get layout_config "label_padding_y"%string (7 # 100) * inch)%Q in
  '(iso_week1_monday, start_iso_week) ← Canvas.lift (iso_anchor (year self));
  Canvas.for_ (range 1 (LayoutManager.WEEKS_IN_YEAR + 1)) (fun row_index =>
    let y := LayoutManager.get_week_y_position (layout self) row_index in
    '(_, _, day_range) ←
      Canvas.lift (row_date_range iso_week1_monday start_iso_week row_index);
    let week_text := day_range in
    let week_text_width :=
      stringWidth week_text (family (font_config self))
        (week_number_size (font_config self) - 1) in
    let band_start := (col_x + (3 # 100) * inch)%Q in
    let band_width := ((25 # 100) * inch)%Q in
    let text_x := (band_start + (band_width - week_text_width) / 2)%Q in
    let y_text := (y - row_height / 2 - label_padding_y)%Q in
    color ← Canvas.lift (dict_getitem (colors self) "week_number"%string);
    DrawingHelper.draw_text week_text text_x y_text
      (family (font_config self)) (week_number_size (font_config self) - 1)
      color "left";;
    if LayoutManager.is_catch_up_week row_index
    then
      quarter ← Canvas.lift (LayoutManager.get_quarter_for_week row_index);
      let message_x := (col_x + (43 # 100) * inch)%Q in
      color ← Canvas.lift (dict_getitem (colors self) "week_number"%string);
      DrawingHelper.draw_text (catch_up_text quarter) message_x y_text
        (family (font_config self) +:+ "-Oblique")
        (week_number_size (font_config self)) color "left"
    else mret tt).

Definition draw_checkbox_column (self : t) : Canvas.M unit :=
  col_positions ←
    Canvas.lift (LayoutManager.get_column_x_positions (layout self));
  col_x ← Canvas.lift (dict_getitem col_positions "checkbox"%string);
  col_widths ← Canvas.lift (LayoutManager.get_column_widths (layout self));
  checkbox_size ← Canvas.lift (dict_getitem col_widths "checkbox"%string);
  let row_height := LayoutManager.get_row_height (layout self) in
  Canvas.for_ (range 1 (LayoutManager.WEEKS_IN_YEAR + 1)) (fun week =>
    let y := LayoutManager.get_week_y_position (layout self) week in
    size ← Canvas.lift (dict_getitem (layout_config self) "checkbox_size"%string);
    let box_x := (col_x + (checkbox_size - size * inch) / 2)%Q in
    let box_y := (y - row_height / 2 - size * inch / 2)%Q in
    color ← Canvas.lift (dict_getitem (colors self) "text"%string);
    DrawingHelper.draw_rectangle box_x box_y (size * inch)%Q (size * inch)%Q
      1 color).

(** The drawing calls of [generate] on a fresh canvas, closed by [save];
    creating the output directory and the file is left to the caller. *)
Definition generate (stringWidth : string -> string -> Z -> Q) (self : t)
  : Canvas.M unit :=
  draw_header self;;
  draw_grid self;;
  draw_quarterly_column self;;
  draw_monthly_column self;;
  draw_weekly_column stringWidth self;;
  draw_checkbox_column self;;
  Canvas.emit Canvas.save.

End GoalTrackerPDF.

(** ** Fixtures: the page of the test suite and a page whose margins
    swallow it *)

Definition letter_page : PageConfig := {|
  width := 612; height := 792;
  top_margin := 36; bottom_margin := 36;
  left_margin := 36; right_margin := 36
|}.

Definition swallowed_page : PageConfig := {|
  width := 612; height := 792;
  top_margin := 400; bottom_margin := 400;
  left_margin := 36; right_margin := 36
|}.

Definition test_layout : gmap string Q :=
  {[ "quarterly_column_width"%string := 125 # 100;
     "monthly_column_width"%string := 125 # 100;
     "weekly_column_width"%string := 45 # 10;
     "checkbox_size"%string := 15 # 100;
     "row_height"%string := 185 # 1000 ]}.

(** The allowance [_calculate_dimensions] borrows from the bottom margin:
    [min(0.1 * inch, bottom_margin * 0.5)]. *)
Definition bonus_height (pc : PageConfig) : Q :=
  fmin ((1 # 10) * inch)%Q (bottom_margin pc * (1 # 2))%Q.

(** The four catch-up rows, written out. *)
Definition catch_up_row (w : Z) : Prop := w = 13 \/ w = 26 \/ w = 39 \/ w = 52.

#[global] Instance catch_up_row_dec w : Decision (catch_up_row w).
Proof. unfold catch_up_row. apply _. Defined.

(** The English three-letter month names, by month number. *)
Definition english_abbreviations : list (Z * string) :=
  [ (1, "Jan"); (2, "Feb"); (3, "Mar"); (4, "Apr"); (5, "May"); (6, "Jun");
    (7, "Jul"); (8, "Aug"); (9, "Sep"); (10, "Oct"); (11, "Nov");
    (12, "Dec") ]%string.

(** ** ISO week anchors of a year, as the specification names them *)

(** [isoWeek1Monday]: the ordinal of the Monday on or before January 4. *)
Definition week1_monday (year : Z) : Z :=
  let jan4 := Datetime._ymd2ord year 1 4 in
  jan4 - (jan4 + 6) mod 7.

(** [hasISOWeek53]: December 28 lies in ISO week 53. *)
Definition has_iso_53 (year : Z) : bool :=
  (Datetime.isocalendar
     {| Datetime.year := year; Datetime.month := 12; Datetime.day := 28 |}).1.2
  =? 53.

(** The first ISO week shown: 2 in a year with an ISO week 53, else 1. *)
Definition start_iso_week (year : Z) : Z := if has_iso_53 year then 2 else 1.

(** ** Reading a canvas and a generator *)

(** A computation that returns [a] after making exactly the calls [ks],
    whatever the canvas held before. *)
Definition writes {A} (m : Canvas.M A) (a : A) (ks : list Canvas.call) : Prop :=
  forall c, m c = (Ok a, c ++ ks).

(** The outlined rectangles among some calls, as [(x, y, width, height)]. *)
Definition outlines (ks : list Canvas.call) : list (Q * Q * Q * Q) :=
  omap (fun k => match k with
                 | Canvas.rect x y w h true _ => Some (x, y, w, h)
                 | _ => None
                 end) ks.

(** The filled rectangles. *)
Definition fills (ks : list Canvas.call) : list (Q * Q * Q * Q) :=
  omap (fun k => match k with
                 | Canvas.rect x y w h _ true => Some (x, y, w, h)
                 | _ => None
                 end) ks.

(** The straight lines, as [(x1, y1, x2, y2)]. *)
Definition strokes (ks : list Canvas.call) : list (Q * Q * Q * Q) :=
  omap (fun k => match k with
                 | Canvas.line x1 y1 x2 y2 => Some (x1, y1, x2, y2)
                 | _ => None
                 end) ks.

(** The texts, as [(x, y, text)]. *)
Definition labels (ks : list Canvas.call) : list (Q * Q * string) :=
  omap (fun k => match k with
                 | Canvas.drawString x y text => Some (x, y, text)
                 | Canvas.drawRightString x y text => Some (x, y, text)
                 | _ => None
                 end) ks.

(** The fonts selected, as [(name, size)]. *)
Definition fonts (ks : list Canvas.call) : list (string * Z) :=
  omap (fun k => match k with
                 | Canvas.setFont name size => Some (name, size)
                 | _ => None
                 end) ks.

Definition value_or {A} (fallback : A) (r : result A) : A :=
  match r with
  | Ok a => a
  | Raise _ => fallback
  end.

(** The x-coordinate and the width of a named column of a generator (0 when
    the columns cannot be computed). *)
Definition column_x (self : GoalTrackerPDF.t) (name : string) : Q :=
  value_or 0%Q
    (pos ← LayoutManager.get_column_x_positions (GoalTrackerPDF.layout self);
     dict_getitem pos name).

Definition column_width (self : GoalTrackerPDF.t) (name : string) : Q :=
  value_or 0%Q
    (wd ← LayoutManager.get_column_widths (GoalTrackerPDF.layout self);
     dict_getitem wd name).

(** The right edge of the grid. *)
Definition grid_right (self : GoalTrackerPDF.t) : Q :=
  (column_x self "checkbox" + column_width self "checkbox")%Q.

(** Top and bottom edge of a week row. *)
Definition row_top (self : GoalTrackerPDF.t) (week : Z) : Q :=
  LayoutManager.get_week_y_position (GoalTrackerPDF.layout self) week.

Definition row_bottom (self : GoalTrackerPDF.t) (week : Z) : Q :=
  (row_top self week
   - LayoutManager.get_row_height (GoalTrackerPDF.layout self))%Q.

(** The layout keys the columns are computed from. *)
Definition column_keys : list string :=
  ["quarterly_column_width"; "monthly_column_width"; "weekly_column_width";
   "checkbox_size"]%string.

Definition has_columns (lc : gmap string Q) : bool :=
  forallb (fun k => bool_decide (is_Some (lc !! k))) column_keys.

(** The configuration file of the test suite. *)
Definition test_config : GoalTrackerConfig.t := {|
  GoalTrackerConfig.page := Some {|
    GoalTrackerConfig.margins := Some {|
      GoalTrackerConfig.top := Some (1 # 2);
      GoalTrackerConfig.bottom := Some (1 # 2);
      GoalTrackerConfig.left := Some (1 # 2);
      GoalTrackerConfig.right := Some (1 # 2) |} |};
  GoalTrackerConfig.fonts := Some {|
    GoalTrackerConfig.fonts_family := Some "Helvetica"%string;
    GoalTrackerConfig.fonts_title_size := Some 18;
    GoalTrackerConfig.fonts_goal_line_size := Some 10;
    GoalTrackerConfig.fonts_quarter_label_size := Some 10;
    GoalTrackerConfig.fonts_month_label_size := Some 9;
    GoalTrackerConfig.fonts_week_number_size := Some 8 |};
  GoalTrackerConfig.colors :=
    Some {[ "grid_line"%string := (0, 0, 0);
            "light_grid"%string := (180, 180, 180);
            "text"%string := (0, 0, 0) ]};
  GoalTrackerConfig.layout := Some test_layout;
  GoalTrackerConfig.output := Some {|
    GoalTrackerConfig.directory := Some "output"%string;
    GoalTrackerConfig.filename := Some "goal_tracker_template.pdf"%string |}
|}.

(** The text measure of the test suite's mock canvas. *)
Definition mock_width (text font : string) (size : Z) : Q := 10.

(** ** The pen of the canvas

    The graphics state the setters act on, and the pen in force at each
    drawing call. *)

Record pen := {
  pen_width : Q;
  pen_stroke : Q * Q * Q;
  pen_fill : Q * Q * Q;
  pen_dash : list Z;
  pen_font : string * Z
}.

Definition pen_step (p : pen) (k : Canvas.call) : pen :=
  match k with
  | Canvas.setLineWidth w =>
      {| pen_width := w; pen_stroke := pen_stroke p; pen_fill := pen_fill p;
         pen_dash := pen_dash p; pen_font := pen_font p |}
  | Canvas.setStrokeColorRGB r g b =>
      {| pen_width := pen_width p; pen_stroke := (r, g, b);
         pen_fill := pen_fill p; pen_dash := pen_dash p;
         pen_font := pen_font p |}
  | Canvas.setFillColorRGB r g b =>
      {| pen_width := pen_width p; pen_stroke := pen_stroke p;
         pen_fill := (r, g, b); pen_dash := pen_dash p;
         pen_font := pen_font p |}
  | Canvas.setDash pattern =>
      {| pen_width := pen_width p; pen_stroke := pen_stroke p;
         pen_fill := pen_fill p; pen_dash := pattern;
         pen_font := pen_font p |}
  | Canvas.setFont name size =>
      {| pen_width := pen_width p; pen_stroke := pen_stroke p;
         pen_fill := pen_fill p; pen_dash := pen_dash p;
         pen_font := (name, size) |}
  | _ => p
  end.

Definition is_mark (k : Canvas.call) : bool :=
  match k with
  | Canvas.line _ _ _ _ | Canvas.rect _ _ _ _ _ _
  | Canvas.drawString _ _ _ | Canvas.drawRightString _ _ _ => true
  | _ => false
  end.

Definition pen_after (p : pen) (ks : list Canvas.call) : pen :=
  fold_left pen_step ks p.

(** The drawing calls among [ks], each with the pen it is drawn with. *)
Fixpoint drawn (p : pen) (ks : list Canvas.call) : list (Canvas.call * pen) :=
  match ks with
  | [] => []
  | k :: ks' =>
      (if is_mark k then [(k, p)] else []) ++ drawn (pen_step p k) ks'
  end.

Definition black : Q * Q * Q := (0, 0, 0)%Q.

(** A layout object on the test suite's page, for a given layout dict. *)
Definition letter_layout (lc : gmap string Q) : LayoutManager.t := {|
  LayoutManager.page_config := letter_page;
  LayoutManager.layout_config := lc;
  LayoutManager.available_width := 540;
  LayoutManager.available_height := 7272 # 10;
  LayoutManager.calculated_row_height := 171 # 13
|}.

(** The calls of the three drawing helpers. *)
Definition line_calls (x1 y1 x2 y2 sw : Q) (color : Z * Z * Z)
    (dash : option (list Z)) : list Canvas.call :=
  [ Canvas.setLineWidth sw;
    Canvas.setStrokeColorRGB (DrawingHelper.unit_rgb color).1.1
      (DrawingHelper.unit_rgb color).1.2 (DrawingHelper.unit_rgb color).2 ]
  ++ (if DrawingHelper.has_dash dash
      then [Canvas.setDash (default [] dash)] else [])
  ++ [Canvas.line x1 y1 x2 y2]
  ++ (if DrawingHelper.has_dash dash then [Canvas.setDash []] else [])
  ++ [Canvas.setStrokeColorRGB 0 0 0].

Definition rectangle_calls (x y w h sw : Q) (color : Z * Z * Z)
  : list Canvas.call :=
  [ Canvas.setLineWidth sw;
    Canvas.setStrokeColorRGB (DrawingHelper.unit_rgb color).1.1
      (DrawingHelper.unit_rgb color).1.2 (DrawingHelper.unit_rgb color).2;
    Canvas.rect x y w h true false;
    Canvas.setStrokeColorRGB 0 0 0 ].

Definition text_calls (text : string) (x y : Q) (font : string) (size : Z)
    (color : Z * Z * Z) (align : string) : list Canvas.call :=
  [ Canvas.setFont font size;
    Canvas.setFillColorRGB (DrawingHelper.unit_rgb color).1.1
      (DrawingHelper.unit_rgb color).1.2 (DrawingHelper.unit_rgb color).2;
    (if String.eqb align "right" then Canvas.drawRightString x y text
     else Canvas.drawString x y text);
    Canvas.setFillColorRGB 0 0 0 ].

(** A colour of a generator, by name (black when the name is unknown). *)
Definition colour_of (self : GoalTrackerPDF.t) (key : string) : Z * Z * Z :=
  value_or (0, 0, 0) (dict_getitem (GoalTrackerPDF.colors self) key).

Definition column_names : list string :=
  ["quarterly"; "monthly"; "weekly"; "checkbox"]%string.

Definition colour_names : list string :=
  ["grid_line"; "light_grid"; "text"; "week_number"; "row_stripe"]%string.

(** The calls of a loop whose body makes the calls [f s x] and leaves the
    local variable at [step s x]. *)
Fixpoint scan_calls {A S} (step : S -> A -> S) (f : S -> A -> list Canvas.call)
    (xs : list A) (s : S) : list Canvas.call :=
  match xs with
  | [] => []
  | x :: xs' => f s x ++ scan_calls step f xs' (step s x)
  end.

(** The first week row of a month: four rows per month, one catch-up row
    skipped after every third month. *)
Definition month_start (month_num : Z) : Z :=
  4 * (month_num - 1) + 1 + (month_num - 1) / 3.

(** The label of a row of the weekly column. *)
Definition row_label (year row_index : Z) : string :=
  value_or ""%string
    ('(_, _, day_range) ← GoalTrackerPDF.date_range_for_row year row_index;
     Ok day_range).

(** The padding below a label, [label_padding_y] in points. *)
Definition label_padding (self : GoalTrackerPDF.t) : Q :=
  (dict_get (GoalTrackerPDF.layout_config self) "label_padding_y"%string
     (7 # 100) * inch)%Q.

(** The calls that paint one stripe. *)
Definition stripe_calls (rgb : Q * Q * Q) (x y w h : Q) : list Canvas.call :=
  [ Canvas.setFillColorRGB rgb.1.1 rgb.1.2 rgb.2;
    Canvas.rect x y w h false true;
    Canvas.setFillColorRGB 0 0 0 ].

(** ** What the renderers draw, as geometry

    The rectangles, lines and texts of each renderer, in the coordinates the
    source computes them in, and the calls that draw them. *)

Definition row_height_of (self : GoalTrackerPDF.t) : Q :=
  LayoutManager.get_row_height (GoalTrackerPDF.layout self).

Definition line_weight (self : GoalTrackerPDF.t) : Q :=
  dict_get (GoalTrackerPDF.layout_config self) "weekly_line_weight"%string
    (5 # 10).

Definition stripes_on (self : GoalTrackerPDF.t) : bool :=
  truthy (dict_get (GoalTrackerPDF.layout_config self)
            "show_row_stripes"%string 0%Q).

Definition month_striped (week : Z) : bool :=
  (0 <? LayoutManager.get_month_for_week week)
  && (LayoutManager.get_month_for_week week mod 2 =? 0).

Definition week_striped (week : Z) : bool := week mod 2 =? 0.

Definition column_stripe (self : GoalTrackerPDF.t) (name : string) (week : Z)
  : Q * Q * Q * Q :=
  (column_x self name, row_bottom self week, column_width self name,
   row_height_of self).

Definition week_line (self : GoalTrackerPDF.t) (week : Z) : Q * Q * Q * Q :=
  ((column_x self "weekly" + (1 # 10) * inch + (125 # 1000) * inch
    + (1 # 10) * inch)%Q,
   row_bottom self week,
   (column_x self "checkbox" + column_width self "checkbox"
    - (5 # 100) * inch - (125 # 1000) * inch + (625 # 10000) * inch
    - (125 # 1000) * inch)%Q,
   row_bottom self week).

Definition quarter_box (self : GoalTrackerPDF.t) (quarter_num : Z)
  : Q * Q * Q * Q :=
  (column_x self "quarterly",
   row_bottom self ((quarter_num - 1) * 13 + 1 + 13 - 1),
   (grid_right self - column_x self "quarterly")%Q,
   (row_top self ((quarter_num - 1) * 13 + 1)
    - row_bottom self ((quarter_num - 1) * 13 + 1 + 13 - 1))%Q).

Definition month_box (self : GoalTrackerPDF.t) (month_num : Z)
  : Q * Q * Q * Q :=
  (column_x self "monthly",
   row_bottom self (month_start month_num + 3),
   (grid_right self - column_x self "monthly")%Q,
   (row_top self (month_start month_num)
    - row_bottom self (month_start month_num + 3))%Q).

Definition checkbox_side (self : GoalTrackerPDF.t) : Q :=
  (dict_get (GoalTrackerPDF.layout_config self) "checkbox_size"%string 0
   * inch)%Q.

Definition checkbox_box (self : GoalTrackerPDF.t) (week : Z) : Q * Q * Q * Q :=
  ((column_x self "checkbox"
    + (column_width self "checkbox" - checkbox_side self) / 2)%Q,
   (row_top self week - row_height_of self / 2 - checkbox_side self / 2)%Q,
   checkbox_side self, checkbox_side self).

(** The writing line of a column at height [y]. *)
Definition rule (self : GoalTrackerPDF.t) (name : string) (y : Q)
  : Q * Q * Q * Q :=
  ((column_x self name + (5 # 100) * inch)%Q, y,
   (column_x self name + column_width self name - (5 # 100) * inch)%Q, y).

(** The baseline of a label in a row starting at [top]. *)
Definition label_y (self : GoalTrackerPDF.t) (top : Q) : Q :=
  (top - row_height_of self / 2 - label_padding self)%Q.

Definition draw_rect (self : GoalTrackerPDF.t) (sw : Q) (key : string)
    (box : Q * Q * Q * Q) : list Canvas.call :=
  let '(x, y, w, h) := box in rectangle_calls x y w h sw (colour_of self key).

Definition draw_stroke (self : GoalTrackerPDF.t) (sw : Q) (key : string)
    (stroke : Q * Q * Q * Q) : list Canvas.call :=
  let '(x1, y1, x2, y2) := stroke in
  line_calls x1 y1 x2 y2 sw (colour_of self key) None.

Definition draw_stripe (self : GoalTrackerPDF.t) (box : Q * Q * Q * Q)
  : list Canvas.call :=
  let '(x, y, w, h) := box in
  stripe_calls (DrawingHelper.unit_rgb (colour_of self "row_stripe")) x y w h.

Definition week_stripes (self : GoalTrackerPDF.t) (week : Z)
  : list (Q * Q * Q * Q) :=
  (if month_striped week then [column_stripe self "monthly" week] else [])
  ++ (if week_striped week then [column_stripe self "weekly" week] else []).

Definition stripes_trace (self : GoalTrackerPDF.t) : list Canvas.call :=
  if stripes_on self
  then range 1 53 ≫= fun week =>
         (if month_striped week
          then draw_stripe self (column_stripe self "monthly" week) else [])
         ++ (if week_striped week
             then draw_stripe self (column_stripe self "weekly" week) else [])
  else [].

Definition week_lines_trace (self : GoalTrackerPDF.t) : list Canvas.call :=
  range 1 53 ≫= fun week =>
    draw_stroke self (line_weight self) "text" (week_line self week).

Definition quarter_boxes_trace (self : GoalTrackerPDF.t) : list Canvas.call :=
  range 1 5 ≫= fun q => draw_rect self 1 "grid_line" (quarter_box self q).

Definition month_boxes_trace (self : GoalTrackerPDF.t) : list Canvas.call :=
  range 1 13 ≫= fun m =>
    draw_rect self (75 # 100) "grid_line" (month_box self m).

Definition grid_trace (self : GoalTrackerPDF.t) : list Canvas.call :=
  stripes_trace self ++ week_lines_trace self ++ quarter_boxes_trace self
  ++ month_boxes_trace self.

Definition checkbox_trace (self : GoalTrackerPDF.t) : list Canvas.call :=
  range 1 53 ≫= fun week => draw_rect self 1 "text" (checkbox_box self week).

Definition quarter_name (quarter_num : Z) : string :=
  value_or ""%string (getitem ["Q1"; "Q2"; "Q3"; "Q4"]%string (quarter_num - 1)).

Definition month_name (month_num : Z) : string :=
  value_or ""%string (LayoutManager.get_month_abbreviation month_num).

(** A label of a column, over the row starting at week [week]. *)
Definition column_label (self : GoalTrackerPDF.t) (name : string) (week : Z)
    (text : string) : Q * Q * string :=
  ((column_x self name + (1 # 10) * inch)%Q,
   label_y self (row_top self week), text).

(** The calls of a run of writing lines, one row height apart, from [y]
    down; [skip] tells which rounds draw nothing. *)
Definition rules_trace {A} (self : GoalTrackerPDF.t) (name : string)
    (skip : A -> bool) (rounds : list A) (y : Q) : list Canvas.call :=
  scan_calls (fun y _ => (y - row_height_of self)%Q)
    (fun y round =>
       if skip round then []
       else draw_stroke self (5 # 10) "text" (rule self name y))
    rounds y.

Definition quarterly_trace (self : GoalTrackerPDF.t) : list Canvas.call :=
  range 1 5 ≫= fun q =>
    (let '(x, y, text) :=
       column_label self "quarterly" ((q - 1) * 13 + 1) (quarter_name q) in
     text_calls text x y (family (GoalTrackerPDF.font_config self))
       (quarter_label_size (GoalTrackerPDF.font_config self))
       (colour_of self "text") "left")
    ++ rules_trace self "quarterly" (fun n => n =? 0) (range 0 6)
         (row_top self ((q - 1) * 13 + 1) - row_height_of self)%Q.

Definition monthly_trace (self : GoalTrackerPDF.t) : list Canvas.call :=
  range 1 13 ≫= fun m =>
    (let '(x, y, text) :=
       column_label self "monthly" (month_start m) (month_name m) in
     text_calls text x y (family (GoalTrackerPDF.font_config self))
       (month_label_size (GoalTrackerPDF.font_config self))
       (colour_of self "text") "left")
    ++ rules_trace self "monthly" (fun _ : Z => false)
         [month_start m; month_start m + 1; month_start m + 2;
          month_start m + 3]
         (row_top self (month_start m) - row_height_of self)%Q.

(** The header: its top edge, the baseline of the title, the start of the
    right 60 % and the two goal lines. *)
Definition header_top (self : GoalTrackerPDF.t) : Q :=
  (height (GoalTrackerPDF.page_config self)
   - top_margin (GoalTrackerPDF.page_config self))%Q.

Definition title_y (self : GoalTrackerPDF.t) : Q :=
  (header_top self - (10 # 100) * inch)%Q.

Definition header_split (self : GoalTrackerPDF.t) : Q :=
  (column_x self "quarterly"
   + (grid_right self - column_x self "quarterly") * (4 # 10))%Q.

Definition goal_line (self : GoalTrackerPDF.t) (y : Q) : Q * Q * Q * Q :=
  ((header_split self + (1 # 10) * inch + (6 # 10) * inch)%Q, y,
   (grid_right self - (1 # 10) * inch)%Q, y).

Definition header_trace (self : GoalTrackerPDF.t) : list Canvas.call :=
  text_calls ("Goal Tracker for " +:+ str (GoalTrackerPDF.year self))
    (column_x self "quarterly" + (1 # 10) * inch)%Q (title_y self)
    "Helvetica-Bold" (goal_line_size (GoalTrackerPDF.font_config self))
    (colour_of self "text") "left"
  ++ text_calls "Goal:" (header_split self + (1 # 10) * inch)%Q (title_y self)
       (family (GoalTrackerPDF.font_config self))
       (goal_line_size (GoalTrackerPDF.font_config self))
       (colour_of self "text") "left"
  ++ draw_stroke self (5 # 10) "text" (goal_line self (title_y self))
  ++ draw_stroke self (5 # 10) "text"
       (goal_line self
          (title_y self - (15 # 100) * inch - (5 # 100) * inch)%Q).

(** The weekly column: where a day range of measured width [w] starts. *)
Definition day_label_x (self : GoalTrackerPDF.t) (w : Q) : Q :=
  (column_x self "weekly" + (3 # 100) * inch + ((25 # 100) * inch - w) / 2)%Q.

Definition weekly_trace (stringWidth : string -> string -> Z -> Q)
    (self : GoalTrackerPDF.t) : list Canvas.call :=
  range 1 53 ≫= fun row_index =>
    let day_range := row_label (GoalTrackerPDF.year self) row_index in
    text_calls day_range
      (day_label_x self
         (stringWidth day_range (family (GoalTrackerPDF.font_config self))
            (week_number_size (GoalTrackerPDF.font_config self) - 1)))
      (label_y self (row_top self row_index))
      (family (GoalTrackerPDF.font_config self))
      (week_number_size (GoalTrackerPDF.font_config self) - 1)
      (colour_of self "week_number") "left"
    ++ (if LayoutManager.is_catch_up_week row_index
        then text_calls
               (GoalTrackerPDF.catch_up_text ((row_index - 1) / 13 + 1))
               (column_x self "weekly" + (43 # 100) * inch)%Q
               (label_y self (row_top self row_index))
               (family (GoalTrackerPDF.font_config self) +:+ "-Oblique")
               (week_number_size (GoalTrackerPDF.font_config self))
               (colour_of self "week_number") "left"
        else []).

(** What is drawn before the weekly column. *)
Definition before_weekly_trace (self : GoalTrackerPDF.t) : list Canvas.call :=
  header_trace self ++ grid_trace self ++ quarterly_trace self
  ++ monthly_trace self.

(** The test suite's configuration with an empty layout section. *)
Definition bare_config : GoalTrackerConfig.t := {|
  GoalTrackerConfig.page := GoalTrackerConfig.page test_config;
  GoalTrackerConfig.fonts := GoalTrackerConfig.fonts test_config;
  GoalTrackerConfig.colors := GoalTrackerConfig.colors test_config;
  GoalTrackerConfig.layout := Some ∅;
  GoalTrackerConfig.output := GoalTrackerConfig.output test_config
|}.


(** * Properties *)

Import Datetime.

(** ** Finite ranges by enumeration *)

Lemma range_enum (lo len : Z) (P : Z -> Prop) `{!forall n, Decision (P n)} :
  bool_decide (Forall P (seqZ lo len)) = true ->
  forall n, lo <= n < lo + len -> P n.
Proof.
  intros Hall n Hn. apply bool_decide_eq_true_1 in Hall.
  rewrite Forall_forall in Hall. apply Hall, elem_of_seqZ. lia.
Qed.

Lemma weeks_enum (P : Z -> Prop) `{!forall w, Decision (P w)} :
  bool_decide (Forall P (seqZ 1 52)) = true ->
  forall w, 1 <= w <= 52 -> P w.
Proof.
  intros Hall w Hw. apply (range_enum 1 52 P Hall). lia.
Qed.

Ltac by_weeks := refine (weeks_enum _ _); vm_compute; reflexivity.

(** ** The unit tests of the repository, replayed on the embedding *)

Example test_get_quarter_for_week :
  LayoutManager.get_quarter_for_week <$> [1; 13; 14; 26; 27; 39; 40; 52]
  = Ok <$> [1; 1; 2; 2; 3; 3; 4; 4].
Proof. reflexivity. Qed.

Example test_is_catch_up_week :
  LayoutManager.is_catch_up_week <$> [13; 26; 39; 52; 1; 25; 51]
  = [true; true; true; true; false; false; false].
Proof. vm_compute. reflexivity. Qed.

Example test_get_month_abbreviation :
  LayoutManager.get_month_abbreviation <$> [1; 6; 12; 0; 13]
  = Ok <$> ["Jan"; "Jun"; "Dec"; ""; ""]%string.
Proof. reflexivity. Qed.

Example test_get_row_height :
  exists lm, LayoutManager.__init__ letter_page test_layout = Ok lm
    /\ (LayoutManager.get_row_height lm == 171 # 13)%Q
    /\ (0 < LayoutManager.get_row_height lm)%Q.
Proof. eexists. split; [reflexivity|]. split; reflexivity. Qed.

Example test_get_week_y_position :
  exists lm, LayoutManager.__init__ letter_page test_layout = Ok lm
    /\ (LayoutManager.get_week_y_position lm 2
        < LayoutManager.get_week_y_position lm 1)%Q
    /\ (LayoutManager.get_week_y_position lm 52
        < LayoutManager.get_week_y_position lm 2)%Q.
Proof. eexists. split; [reflexivity|]. split; reflexivity. Qed.

Example test_iso_week_shift_starts_at_week2_for_53_week_year :
  exists rest,
    GoalTrackerPDF.weekly_labels 2020 = Ok ("6-10"%string :: rest)
    /\ length rest = 51%nat.
Proof. eexists. split; vm_compute; reflexivity. Qed.

(** ** Quarters *)

Lemma get_quarter_for_week_value (w : Z) :
  LayoutManager.get_quarter_for_week w = Ok ((w - 1) / 13 + 1).
Proof. reflexivity. Qed.

(** C6: on 1..52 the quarter is floor((week-1)/13)+1, lies in 1..4, is
    non-decreasing in the week, and each quarter 1..4 holds exactly the 13
    contiguous weeks 13(q-1)+1 .. 13q. *)
Theorem get_quarter_for_week_partition :
  (forall w, 1 <= w <= 52 ->
     LayoutManager.get_quarter_for_week w = Ok ((w - 1) / 13 + 1)
     /\ 1 <= (w - 1) / 13 + 1 <= 4)
  /\ (forall w w' q q', 1 <= w <= 52 -> 1 <= w' <= 52 -> w <= w' ->
        LayoutManager.get_quarter_for_week w = Ok q ->
        LayoutManager.get_quarter_for_week w' = Ok q' -> q <= q')
  /\ (forall q, 1 <= q <= 4 ->
        filter (fun w => LayoutManager.get_quarter_for_week w = Ok q)
               (range 1 53)
        = range (13 * (q - 1) + 1) (13 * q + 1)
        /\ length (range (13 * (q - 1) + 1) (13 * q + 1)) = 13%nat).
Proof.
  split; [|split].
  - intros w Hw. split; [apply get_quarter_for_week_value|].
    Z.to_euclidean_division_equations; lia.
  - intros w w' q q' _ _ Hle.
    rewrite !get_quarter_for_week_value. intros [= <-] [= <-].
    Z.to_euclidean_division_equations; lia.
  - intros q Hq.
    assert (q = 1 \/ q = 2 \/ q = 3 \/ q = 4) as [->|[->|[->| ->]]] by lia;
      split; vm_compute; reflexivity.
Qed.

Lemma get_quarter_for_week_partition_witness :
  LayoutManager.get_quarter_for_week 27 = Ok 3
  /\ filter (fun w => LayoutManager.get_quarter_for_week w = Ok 3) (range 1 53)
     = range 27 40.
Proof.
  destruct get_quarter_for_week_partition as (Hval & _ & Hgroup).
  split.
  - exact (proj1 (Hval 27 ltac:(lia))).
  - exact (proj1 (Hgroup 3 ltac:(lia))).
Defined.

(** C4 does not hold: weeks 0 and 53 are answered, with quarters 0 and 5. *)
Lemma get_quarter_for_week_out_of_range_returns :
  LayoutManager.get_quarter_for_week 0 = Ok 0
  /\ LayoutManager.get_quarter_for_week 53 = Ok 5
  /\ ~ raises (LayoutManager.get_quarter_for_week 0)
  /\ ~ raises (LayoutManager.get_quarter_for_week 53).
Proof.
  repeat split; try reflexivity; intros [e He]; discriminate He.
Qed.

(** C4, amended: the quarter function returns floor((week-1)/13)+1 for
    every integer and never raises; the value lies in 1..4 exactly when the
    week lies in 1..52. *)
Theorem get_quarter_for_week_total (w : Z) :
  exists q, LayoutManager.get_quarter_for_week w = Ok q
    /\ q = (w - 1) / 13 + 1
    /\ ~ raises (LayoutManager.get_quarter_for_week w)
    /\ (1 <= q <= 4 <-> 1 <= w <= 52).
Proof.
  exists ((w - 1) / 13 + 1). split; [reflexivity|]. split; [reflexivity|].
  split.
  - intros [e He]. discriminate He.
  - Z.to_euclidean_division_equations; lia.
Qed.

(** ** Catch-up weeks and months *)

Lemma is_catch_up_week_iff (w : Z) :
  LayoutManager.is_catch_up_week w = true <-> catch_up_row w.
Proof.
  unfold LayoutManager.is_catch_up_week, LayoutManager.CATCH_UP_WEEKS,
    catch_up_row.
  rewrite bool_decide_eq_true, !elem_of_union, !elem_of_singleton. tauto.
Qed.

(** C7: a week is a catch-up week iff it is 13, 26, 39 or 52; on 1..52 the
    month lookup answers the sentinel -1 on exactly these weeks and a month
    in 1..12 on all others. *)
Theorem catch_up_weeks_exact (w : Z) :
  1 <= w <= 52 ->
  (LayoutManager.is_catch_up_week w = true <-> catch_up_row w)
  /\ (LayoutManager.get_month_for_week w = -1 <-> catch_up_row w)
  /\ (~ catch_up_row w -> 1 <= LayoutManager.get_month_for_week w <= 12).
Proof.
  revert w. by_weeks.
Qed.

Lemma catch_up_weeks_exact_witness :
  (LayoutManager.is_catch_up_week 26 = true <-> catch_up_row 26)
  /\ (LayoutManager.get_month_for_week 26 = -1 <-> catch_up_row 26)
  /\ (~ catch_up_row 26 -> 1 <= LayoutManager.get_month_for_week 26 <= 12).
Proof.
  apply (catch_up_weeks_exact 26). lia.
Defined.

(** The month scan fills every month with four consecutive rows. *)
Lemma build_month_lines_value :
  GoalTrackerPDF.build_month_lines =
  Ok {[ 1 := [1; 2; 3; 4]; 2 := [5; 6; 7; 8]; 3 := [9; 10; 11; 12];
        4 := [14; 15; 16; 17]; 5 := [18; 19; 20; 21]; 6 := [22; 23; 24; 25];
        7 := [27; 28; 29; 30]; 8 := [31; 32; 33; 34]; 9 := [35; 36; 37; 38];
        10 := [40; 41; 42; 43]; 11 := [44; 45; 46; 47];
        12 := [48; 49; 50; 51] ]}.
Proof. vm_compute. reflexivity. Qed.

(** C3: on 1..52 the table lookup and the sequential scan assign the same
    month, and the table answers the sentinel -1 exactly on the catch-up
    weeks. *)
Theorem month_table_matches_scan (w : Z) :
  1 <= w <= 52 ->
  GoalTrackerPDF.sequential_month_for_week w
    = Ok (LayoutManager.get_month_for_week w)
  /\ (LayoutManager.get_month_for_week w = -1
      <-> LayoutManager.is_catch_up_week w = true).
Proof.
  revert w. by_weeks.
Qed.

Lemma month_table_matches_scan_witness :
  GoalTrackerPDF.sequential_month_for_week 48
    = Ok (LayoutManager.get_month_for_week 48)
  /\ (LayoutManager.get_month_for_week 48 = -1
      <-> LayoutManager.is_catch_up_week 48 = true).
Proof.
  apply (month_table_matches_scan 48). lia.
Defined.

(** ** Month abbreviations *)

(** C9: months 1..12 get their three-letter English abbreviation; every
    other integer gets the empty string, and no call raises. *)
Theorem get_month_abbreviation_lenient (m : Z) :
  (1 <= m <= 12 ->
     exists s, LayoutManager.get_month_abbreviation m = Ok s
       /\ (m, s) ∈ english_abbreviations /\ String.length s = 3%nat)
  /\ (m < 1 \/ 12 < m ->
        LayoutManager.get_month_abbreviation m = Ok ""%string)
  /\ ~ raises (LayoutManager.get_month_abbreviation m).
Proof.
  assert (Hin : 1 <= m <= 12 ->
     exists s, LayoutManager.get_month_abbreviation m = Ok s
       /\ (m, s) ∈ english_abbreviations /\ String.length s = 3%nat).
  { intros Hm.
    assert (m = 1 \/ m = 2 \/ m = 3 \/ m = 4 \/ m = 5 \/ m = 6 \/ m = 7
            \/ m = 8 \/ m = 9 \/ m = 10 \/ m = 11 \/ m = 12) as Hcases by lia.
    repeat destruct Hcases as [-> | Hcases]; try subst m;
      eexists; (split; [reflexivity|]); (split; [|reflexivity]);
      unfold english_abbreviations;
      repeat first [apply list_elem_of_here | apply list_elem_of_further]. }
  assert (Hout : m < 1 \/ 12 < m ->
     LayoutManager.get_month_abbreviation m = Ok ""%string).
  { intros Hm. unfold LayoutManager.get_month_abbreviation.
    destruct (1 <=? m) eqn:E1, (m <=? 12) eqn:E2; simpl; try reflexivity.
    apply Z.leb_le in E1. apply Z.leb_le in E2. lia. }
  split; [exact Hin|]. split; [exact Hout|].
  intros [e He].
  destruct (decide (1 <= m <= 12)) as [Hm|Hm].
  - destruct (Hin Hm) as (s & Hs & _). congruence.
  - rewrite Hout in He by lia. discriminate He.
Qed.

Lemma get_month_abbreviation_lenient_witness :
  LayoutManager.get_month_abbreviation 1 = Ok "Jan"%string
  /\ LayoutManager.get_month_abbreviation 12 = Ok "Dec"%string
  /\ LayoutManager.get_month_abbreviation 0 = Ok ""%string
  /\ LayoutManager.get_month_abbreviation 13 = Ok ""%string
  /\ LayoutManager.get_month_abbreviation (-5) = Ok ""%string.
Proof.
  split; [reflexivity|]. split; [reflexivity|].
  split; [apply (get_month_abbreviation_lenient 0); lia|].
  split; [apply (get_month_abbreviation_lenient 13); lia|].
  apply (get_month_abbreviation_lenient (-5)); lia.
Defined.

(** ** Row geometry *)

Lemma fmin_le_l (a b : Q) : (fmin a b <= a)%Q.
Proof.
  unfold fmin. destruct (Qle_bool a b) eqn:E; [apply Qle_refl|].
  apply Qlt_le_weak, Qnot_le_lt. intros Hle.
  apply Qle_bool_iff in Hle. congruence.
Qed.

Lemma fmin_le_r (a b : Q) : (fmin a b <= b)%Q.
Proof.
  unfold fmin. destruct (Qle_bool a b) eqn:E; [|apply Qle_refl].
  now apply Qle_bool_iff.
Qed.

Lemma Qdiv52_inj (a c : Q) : (a / 52 == c / 52 -> a == c)%Q.
Proof.
  intros H.
  assert (Ha : (a == 52 * (a / 52))%Q) by field.
  assert (Hc : (c == 52 * (c / 52))%Q) by field.
  rewrite Ha, Hc, H. reflexivity.
Qed.

Section Geometry.

Variable pc : PageConfig.
Variable lc : gmap string Q.

(** Construction always returns, and stores the page unchanged. *)
Lemma init_returns :
  exists lm, LayoutManager.__init__ pc lc = Ok lm
    /\ LayoutManager.page_config lm = pc
    /\ LayoutManager.get_row_height lm =
         ((height pc - top_margin pc - bottom_margin pc + bonus_height pc
           - (6 # 10) * inch) / inject_Z 52)%Q.
Proof.
  eexists. split; [reflexivity|]. split; reflexivity.
Qed.

Lemma init_inv (lm : LayoutManager.t) :
  LayoutManager.__init__ pc lc = Ok lm ->
  LayoutManager.page_config lm = pc
  /\ LayoutManager.get_row_height lm =
       ((height pc - top_margin pc - bottom_margin pc + bonus_height pc
         - (6 # 10) * inch) / inject_Z 52)%Q.
Proof.
  destruct init_returns as (lm' & Hinit & Hpc & Hrh).
  rewrite Hinit. intros [= <-]. split; assumption.
Qed.

(** 52 rows take up what the row-height computation had available. *)
Lemma rows_total (lm : LayoutManager.t) :
  LayoutManager.__init__ pc lc = Ok lm ->
  (52 * LayoutManager.get_row_height lm ==
   height pc - top_margin pc - bottom_margin pc + bonus_height pc
   - (6 # 10) * inch)%Q.
Proof.
  intros Hinit. destruct (init_inv lm Hinit) as [_ ->].
  change (inject_Z 52) with 52%Q. field.
Qed.

Lemma week_y_unfold (lm : LayoutManager.t) (week : Z) :
  LayoutManager.__init__ pc lc = Ok lm ->
  (LayoutManager.get_week_y_position lm week ==
   height pc - top_margin pc - (5 # 10) * inch
   - inject_Z (week - 1) * LayoutManager.get_row_height lm)%Q.
Proof.
  intros Hinit. destruct (init_inv lm Hinit) as [Hpc _].
  unfold LayoutManager.get_week_y_position, LayoutManager.get_header_height.
  rewrite Hpc. reflexivity.
Qed.

End Geometry.


(** C1 does not hold: no single header height fits both the row height and
    the row positions of the test suite's page. *)
Lemma single_header_height_refuted :
  ~ exists header_height : Q,
      forall pc lc lm, LayoutManager.__init__ pc lc = Ok lm ->
        (LayoutManager.get_row_height lm ==
           (height pc - top_margin pc - bottom_margin pc + bonus_height pc
            - header_height) / 52)%Q
        /\ forall week,
            (LayoutManager.get_week_y_position lm week ==
               height pc - top_margin pc - header_height
               - inject_Z (week - 1) * LayoutManager.get_row_height lm)%Q.
Proof.
  intros [h Hall].
  destruct (init_returns letter_page test_layout) as (lm & Hinit & _ & _).
  destruct (Hall _ _ _ Hinit) as [Hrow Hy].
  specialize (Hy 1).
  rewrite (week_y_unfold _ _ _ 1 Hinit) in Hy.
  destruct (init_inv _ _ _ Hinit) as [_ Hrh]. rewrite Hrh in Hrow.
  clear Hall Hinit Hrh.
  set (b := bonus_height letter_page) in *.
  set (r := LayoutManager.get_row_height lm) in *.
  change (inject_Z (1 - 1)) with 0%Q in Hy.
  change (inject_Z 52) with 52%Q in Hrow.
  clearbody b r. apply Qdiv52_inj in Hrow.
  unfold inch in *. simpl in Hrow, Hy. lra.
Qed.

(** C1, amended: the row height reserves 0.6 inch for the header, the row
    positions start 0.5 inch (the value of [get_header_height]) below the
    top margin, and the two constants differ. *)
Theorem header_heights_of_layout (pc : PageConfig) (lc : gmap string Q) :
  exists lm, LayoutManager.__init__ pc lc = Ok lm
    /\ (LayoutManager.get_row_height lm ==
          (height pc - top_margin pc - bottom_margin pc + bonus_height pc
           - (6 # 10) * inch) / 52)%Q
    /\ (forall week,
          (LayoutManager.get_week_y_position lm week ==
             height pc - top_margin pc - LayoutManager.get_header_height lm
             - inject_Z (week - 1) * LayoutManager.get_row_height lm)%Q)
    /\ (LayoutManager.get_header_height lm == (5 # 10) * inch)%Q
    /\ ~ ((6 # 10) * inch == (5 # 10) * inch)%Q.
Proof.
  destruct (init_returns pc lc) as (lm & Hinit & Hpc & Hrh).
  exists lm. split; [exact Hinit|]. split; [|split; [|split]].
  - rewrite Hrh. reflexivity.
  - intros week. rewrite (week_y_unfold pc lc lm week Hinit). reflexivity.
  - reflexivity.
  - discriminate.
Qed.

(** C2 does not hold: with top and bottom margins of 400 points on a page
    792 points high, construction returns a layout whose row height is
    negative. *)
Lemma swallowed_page_is_constructed :
  (height swallowed_page
     <= top_margin swallowed_page + bottom_margin swallowed_page)%Q
  /\ ~ raises (LayoutManager.__init__ swallowed_page test_layout)
  /\ exists lm, LayoutManager.__init__ swallowed_page test_layout = Ok lm
       /\ (LayoutManager.get_row_height lm == - (11 # 13))%Q
       /\ (LayoutManager.get_row_height lm < 0)%Q.
Proof.
  split; [discriminate|]. split.
  - intros [e He]. discriminate He.
  - eexists. split; [reflexivity|]. split; reflexivity.
Qed.

(** C2, amended: construction never raises; it returns a layout for every
    page, and when the top and bottom margins sum to at least the page
    height the stored row height is negative. *)
Theorem init_never_raises (pc : PageConfig) (lc : gmap string Q) :
  ~ raises (LayoutManager.__init__ pc lc)
  /\ exists lm, LayoutManager.__init__ pc lc = Ok lm
       /\ ((height pc <= top_margin pc + bottom_margin pc)%Q ->
           (LayoutManager.get_row_height lm < 0)%Q).
Proof.
  destruct (init_returns pc lc) as (lm & Hinit & _ & _).
  split.
  - rewrite Hinit. intros [e He]. discriminate He.
  - exists lm. split; [exact Hinit|]. intros Hmargins.
    pose proof (rows_total pc lc lm Hinit) as Htotal.
    pose proof (fmin_le_l ((1 # 10) * inch) (bottom_margin pc * (1 # 2)))
      as Hbonus.
    fold (bonus_height pc) in Hbonus. unfold inch in *.
    set (r := LayoutManager.get_row_height lm) in *. clearbody r.
    set (b := bonus_height pc) in *. clearbody b.
    lra.
Qed.

Lemma init_never_raises_witness :
  exists lm, LayoutManager.__init__ swallowed_page test_layout = Ok lm
    /\ (LayoutManager.get_row_height lm < 0)%Q.
Proof.
  destruct (init_never_raises swallowed_page test_layout)
    as (_ & lm & Hinit & Hneg).
  exists lm. split; [exact Hinit|]. apply Hneg. discriminate.
Defined.





(** ** Calendar arithmetic *)

Lemma is_leap_iff (y : Z) :
  _is_leap y = true <-> y mod 4 = 0 /\ (y mod 100 <> 0 \/ y mod 400 = 0).
Proof.
  unfold _is_leap.
  rewrite andb_true_iff, orb_true_iff, negb_true_iff, !Z.eqb_eq, Z.eqb_neq.
  reflexivity.
Qed.

Lemma days_before_year_succ (y : Z) :
  _days_before_year (y + 1)
  = _days_before_year y + 365 + (if _is_leap y then 1 else 0).
Proof.
  pose proof (is_leap_iff y) as Hleap.
  destruct (_is_leap y); unfold _days_before_year; cbv zeta;
    replace (y + 1 - 1) with y by lia.
  - destruct (proj1 Hleap eq_refl) as [H4 H100]. clear Hleap.
    Z.to_euclidean_division_equations. lia.
  - assert (Hn : ~ (y mod 4 = 0 /\ (y mod 100 <> 0 \/ y mod 400 = 0))).
    { intros H. apply Hleap in H. discriminate. }
    clear Hleap. Z.to_euclidean_division_equations. lia.
Qed.

Lemma days_before_year_decomp (n400 n100 n4 n1 : Z) :
  0 <= n100 <= 3 -> 0 <= n4 <= 24 -> 0 <= n1 <= 3 ->
  _days_before_year (n400 * 400 + 1 + n100 * 100 + n4 * 4 + n1)
  = n400 * _DI400Y + n100 * _DI100Y + n4 * _DI4Y + n1 * 365.
Proof.
  intros H100 H4 H1. unfold _days_before_year, _DI400Y, _DI100Y, _DI4Y.
  cbv zeta.
  replace (n400 * 400 + 1 + n100 * 100 + n4 * 4 + n1 - 1)
    with (n400 * 400 + n100 * 100 + n4 * 4 + n1) by lia.
  Z.to_euclidean_division_equations. lia.
Qed.

Lemma month_day_spec (leap : bool) (n : Z) :
  0 <= n < 0 + (if leap then 366 else 365) ->
  1 <= (_month_day n leap).1 <= 12
  /\ 1 <= (_month_day n leap).2
  /\ (_month_day n leap).2
     <= (if ((_month_day n leap).1 =? 2) && leap then 29
         else _DAYS_IN_MONTH !!! Z.to_nat (_month_day n leap).1)
  /\ _DAYS_BEFORE_MONTH !!! Z.to_nat (_month_day n leap).1
     + (if (2 <? (_month_day n leap).1) && leap then 1 else 0)
     + (_month_day n leap).2 = n + 1.
Proof.
  revert n. destruct leap; refine (range_enum _ _ _ _); vm_compute; reflexivity.
Qed.

(** The ordinal of the date found for an ordinal is that ordinal, and the
    date found is a valid one. *)
Lemma ord2ymd_spec (n : Z) :
  1 <= n ->
  1 <= (_ord2ymd n).1.1
  /\ 1 <= (_ord2ymd n).1.2 <= 12
  /\ 1 <= (_ord2ymd n).2 <= _days_in_month (_ord2ymd n).1.1 (_ord2ymd n).1.2
  /\ _ymd2ord (_ord2ymd n).1.1 (_ord2ymd n).1.2 (_ord2ymd n).2 = n.
Proof.
  intros Hn. unfold _ord2ymd. cbv zeta.
  set (n0 := n - 1).
  set (n400 := n0 / _DI400Y). set (r1 := n0 mod _DI400Y).
  set (n100 := r1 / _DI100Y). set (r2 := r1 mod _DI100Y).
  set (n4 := r2 / _DI4Y). set (r3 := r2 mod _DI4Y).
  set (n1 := r3 / 365). set (r4 := r3 mod 365).
  assert (Hn0 : n0 = n400 * _DI400Y + r1 /\ 0 <= r1 < _DI400Y /\ 0 <= n400).
  { subst n400 r1. unfold _DI400Y. Z.to_euclidean_division_equations. lia. }
  assert (Hr1 : r1 = n100 * _DI100Y + r2 /\ 0 <= r2 < _DI100Y /\ 0 <= n100 <= 4
                /\ (n100 = 4 -> r2 = 0)).
  { subst n100 r2. unfold _DI100Y, _DI400Y in *.
    Z.to_euclidean_division_equations. lia. }
  assert (Hr2 : r2 = n4 * _DI4Y + r3 /\ 0 <= r3 < _DI4Y /\ 0 <= n4 <= 24
                /\ (n4 = 24 -> r3 < 1460)).
  { subst n4 r3. unfold _DI4Y, _DI100Y in *.
    Z.to_euclidean_division_equations. lia. }
  assert (Hr3 : r3 = n1 * 365 + r4 /\ 0 <= r4 < 365 /\ 0 <= n1 <= 4
                /\ (n1 = 4 -> r4 = 0)).
  { subst n1 r4. unfold _DI4Y in *.
    Z.to_euclidean_division_equations. lia. }
  clearbody n400 r1 n100 r2 n4 r3 n1 r4.
  change _DI400Y with 146097 in *. change _DI100Y with 36524 in *.
  change _DI4Y with 1461 in *.
  destruct Hn0 as (Hn0 & Hr1b & H400).
  destruct Hr1 as (Hr1 & Hr2b & H100 & H100').
  destruct Hr2 as (Hr2 & Hr3b & H4 & H4').
  destruct Hr3 as (Hr3 & Hr4b & H1 & H1').
  destruct ((n1 =? 4) || (n100 =? 4)) eqn:Hlast.
  - (* the last day of a leap year *)
    cbn [fst snd].
    apply orb_true_iff in Hlast. rewrite !Z.eqb_eq in Hlast.
    set (y := n400 * 400 + 1 + n100 * 100 + n4 * 4 + n1 - 1).
    assert (Hleap : _is_leap y = true).
    { apply is_leap_iff. subst y. Z.to_euclidean_division_equations. lia. }
    assert (Hdby : _days_before_year (y + 1) = n0 + 1).
    { destruct Hlast as [-> | ->].
      - replace (y + 1) with (n400 * 400 + 1 + n100 * 100 + (n4 + 1) * 4 + 0)
          by (subst y; lia).
        rewrite days_before_year_decomp by lia.
        change _DI400Y with 146097. change _DI100Y with 36524.
        change _DI4Y with 1461. lia.
      - replace (y + 1) with ((n400 + 1) * 400 + 1 + 0 * 100 + 0 * 4 + 0)
          by (subst y; lia).
        rewrite days_before_year_decomp by lia.
        change _DI400Y with 146097. change _DI100Y with 36524.
        change _DI4Y with 1461. lia. }
    rewrite days_before_year_succ, Hleap in Hdby.
    unfold _ymd2ord, _days_in_month, _days_before_month. rewrite Hleap.
    cbn.
    change (_DAYS_IN_MONTH !!! Z.to_nat 12) with 31.
    change (_DAYS_BEFORE_MONTH !!! Z.to_nat 12) with 334.
    split; [subst y; lia|]. split; [lia|]. split; [lia|].
    subst n0. lia.
  - apply orb_false_iff in Hlast. rewrite !Z.eqb_neq in Hlast.
    set (leapyear := (n1 =? 3) && (negb (n4 =? 24) || (n100 =? 3))).
    set (y := n400 * 400 + 1 + n100 * 100 + n4 * 4 + n1).
    assert (Hleap : _is_leap y = leapyear).
    { subst leapyear. apply eq_true_iff_eq. rewrite is_leap_iff.
      rewrite andb_true_iff, orb_true_iff, negb_true_iff, !Z.eqb_eq, Z.eqb_neq.
      subst y. Z.to_euclidean_division_equations. lia. }
    assert (Hdby : _days_before_year y = n0 - r4).
    { subst y. rewrite days_before_year_decomp by lia.
      change _DI400Y with 146097. change _DI100Y with 36524.
      change _DI4Y with 1461. lia. }
    pose proof (month_day_spec leapyear r4) as Hmd.
    destruct (_month_day r4 leapyear) as [m d] eqn:Emd. cbn [fst snd] in *.
    destruct Hmd as (Hm & Hd1 & Hd2 & Hsum).
    { destruct leapyear; lia. }
    unfold _ymd2ord, _days_in_month, _days_before_month. rewrite Hleap.
    split; [subst y; lia|]. split; [lia|]. split; [lia|].
    subst n0. lia.
Qed.

Ltac eval_tables :=
  repeat match goal with
  | |- context [?t !!! Z.to_nat ?i] =>
      let v := eval vm_compute in (t !!! Z.to_nat i) in
      change (t !!! Z.to_nat i) with v
  | H : context [?t !!! Z.to_nat ?i] |- _ =>
      let v := eval vm_compute in (t !!! Z.to_nat i) in
      change (t !!! Z.to_nat i) with v in H
  end.

Lemma toordinal_of_ordinal (n : Z) : 1 <= n -> toordinal (of_ordinal n) = n.
Proof.
  intros Hn. pose proof (ord2ymd_spec n Hn) as (_ & _ & _ & Heq).
  unfold toordinal, of_ordinal.
  destruct (_ord2ymd n) as [[y m] d]. exact Heq.
Qed.

Lemma days_before_year_mono (a b : Z) :
  a < b -> _days_before_year a + 365 <= _days_before_year b.
Proof.
  intros Hab. unfold _days_before_year. cbv zeta.
  Z.to_euclidean_division_equations. lia.
Qed.

(** A valid date lies within its year. *)
Lemma ymd2ord_within_year (y m d : Z) :
  1 <= m <= 12 -> 1 <= d <= _days_in_month y m ->
  _days_before_year y < _ymd2ord y m d <= _days_before_year (y + 1).
Proof.
  intros Hm Hd. rewrite days_before_year_succ.
  unfold _ymd2ord, _days_before_month. unfold _days_in_month in Hd.
  assert (m = 1 \/ m = 2 \/ m = 3 \/ m = 4 \/ m = 5 \/ m = 6 \/ m = 7
          \/ m = 8 \/ m = 9 \/ m = 10 \/ m = 11 \/ m = 12) as Hcases by lia.
  destruct (_is_leap y);
    repeat destruct Hcases as [-> | Hcases]; try subst m;
    eval_tables; cbn in Hd |- *; lia.
Qed.

Lemma year_of_ordinal (n : Z) :
  1 <= n ->
  _days_before_year (_ord2ymd n).1.1 < n
  <= _days_before_year ((_ord2ymd n).1.1 + 1).
Proof.
  intros Hn. pose proof (ord2ymd_spec n Hn) as (_ & Hm & Hd & Heq).
  rewrite <- Heq at 2 3. now apply ymd2ord_within_year.
Qed.

Lemma ymd2ord_jan (y d : Z) : _ymd2ord y 1 d = _days_before_year y + d.
Proof. unfold _ymd2ord, _days_before_month. eval_tables. cbn. lia. Qed.

Lemma ymd2ord_dec28 (y : Z) :
  _ymd2ord y 12 28 = _days_before_year (y + 1) - 3.
Proof.
  rewrite days_before_year_succ.
  unfold _ymd2ord, _days_before_month. eval_tables. cbn.
  destruct (_is_leap y); lia.
Qed.

(** The module's first ISO Monday is a Monday at most three days away from
    January 1, and it is the Monday on or before January 4. *)
Lemma isoweek1monday_spec (y : Z) :
  (_isoweek1monday y + 6) mod 7 = 0
  /\ _days_before_year y - 2 <= _isoweek1monday y <= _days_before_year y + 4
  /\ _isoweek1monday y = week1_monday y.
Proof.
  unfold _isoweek1monday, week1_monday. cbv zeta. rewrite !ymd2ord_jan.
  set (D := _days_before_year y). clearbody D.
  destruct (3 <? (D + 1 + 6) mod 7) eqn:E;
    [apply Z.ltb_lt in E | apply Z.ltb_ge in E];
    Z.to_euclidean_division_equations; lia.
Qed.

(** A year has an ISO week 53 exactly when the Monday 52 weeks after its
    first ISO Monday is no later than December 28. *)
Lemma has_iso_53_iff (y : Z) :
  has_iso_53 y = true
  <-> week1_monday y + 364 <= _days_before_year (y + 1) - 3.
Proof.
  unfold has_iso_53, isocalendar. cbn [year month day].
  rewrite ymd2ord_dec28.
  pose proof (isoweek1monday_spec y) as (Hmon & Hnear & Heq).
  pose proof (isoweek1monday_spec (y + 1)) as (_ & Hnext & _).
  pose proof (isoweek1monday_spec (y - 1)) as (_ & Hprev & _).
  pose proof (days_before_year_succ y) as Hsucc.
  rewrite <- Heq.
  set (D := _days_before_year y) in *. set (D' := _days_before_year (y + 1)) in *.
  set (W := _isoweek1monday y) in *. set (W' := _isoweek1monday (y + 1)) in *.
  set (W0 := _isoweek1monday (y - 1)) in *.
  clearbody D D' W W' W0.
  assert (Hyear : 365 <= D' - D <= 366) by (destruct (_is_leap y); lia).
  clear Hsucc Heq.
  destruct ((D' - 3 - W) / 7 <? 0) eqn:E0;
    [apply Z.ltb_lt in E0 | apply Z.ltb_ge in E0].
  { exfalso. Z.to_euclidean_division_equations. lia. }
  destruct (52 <=? (D' - 3 - W) / 7) eqn:E52;
    [apply Z.leb_le in E52 | apply Z.leb_gt in E52].
  - destruct (W' <=? D' - 3) eqn:EW; [apply Z.leb_le in EW; lia|].
    cbn [fst snd]. rewrite Z.eqb_eq.
    Z.to_euclidean_division_equations. lia.
  - cbn [fst snd]. rewrite Z.eqb_eq.
    Z.to_euclidean_division_equations. lia.
Qed.

Ltac triple :=
  apply pair_equal_spec; split; [apply pair_equal_spec; split|].

(** Day [j] (Monday is 0) of ISO week [k] of a year, counted from the
    Monday on or before January 4, is reported by [isocalendar] as day
    [j+1] of week [k] of that ISO year. *)
Lemma isocalendar_of_iso_week (y k j : Z) :
  1 <= week1_monday y ->
  1 <= k -> k <= 52 \/ (k = 53 /\ has_iso_53 y = true) ->
  0 <= j <= 6 ->
  isocalendar (of_ordinal (week1_monday y + 7 * (k - 1) + j)) = (y, k, j + 1).
Proof.
  intros Hpos Hk Hlast Hj.
  remember (week1_monday y + 7 * (k - 1) + j) as t eqn:Et.
  assert (Ht : 1 <= t) by lia.
  pose proof (ord2ymd_spec t Ht) as (_ & _ & _ & Hord).
  pose proof (year_of_ordinal t Ht) as Hyear.
  unfold of_ordinal, isocalendar.
  destruct (_ord2ymd t) as [[y' m'] d']. cbn [fst snd year month day] in *.
  rewrite Hord. clear Hord m' d'.
  pose proof (isoweek1monday_spec y) as (Hmon & Hnear & Heq).
  pose proof (isoweek1monday_spec (y + 1)) as (Hmon1 & Hnear1 & _).
  pose proof (isoweek1monday_spec (y - 1)) as (Hmon0 & Hnear0 & _).
  pose proof (days_before_year_succ y) as Hsucc.
  pose proof (days_before_year_succ (y - 1)) as Hsucc0.
  replace (y - 1 + 1) with y in Hsucc0 by lia.
  assert (H53 : k = 53 ->
            week1_monday y + 364 <= _days_before_year (y + 1) - 3).
  { intros ->. apply has_iso_53_iff. destruct Hlast as [?|[_ ?]]; [lia|done]. }
  assert (Hy' : y' = y - 1 \/ y' = y \/ y' = y + 1).
  { destruct (Z.lt_trichotomy y' y) as [Hlt | [-> | Hgt]]; [|lia|].
    - destruct (decide (y' = y - 1)) as [->|Hne]; [lia|].
      pose proof (days_before_year_mono (y' + 1) y ltac:(lia)).
      destruct (_is_leap y), (_is_leap (y - 1)); lia.
    - destruct (decide (y' = y + 1)) as [->|Hne]; [lia|].
      pose proof (days_before_year_mono (y + 1) y' ltac:(lia)).
      destruct (_is_leap y), (_is_leap (y - 1)); lia. }
  rewrite <- Heq in *. clear Heq.
  assert (Hlen : 365 <= _days_before_year (y + 1) - _days_before_year y <= 366)
    by (destruct (_is_leap y); lia).
  assert (Hlen0 : 365 <= _days_before_year y - _days_before_year (y - 1) <= 366)
    by (destruct (_is_leap (y - 1)); lia).
  clear Hsucc Hsucc0.
  destruct Hy' as [-> | [-> | ->]].
  - (* the first days of week 1 fall in the previous calendar year *)
    replace (y - 1 + 1) with y in * by lia.
    set (D := _days_before_year y) in *.
    set (D0 := _days_before_year (y - 1)) in *.
    set (D1 := _days_before_year (y + 1)) in *.
    set (W := _isoweek1monday y) in *.
    set (W0 := _isoweek1monday (y - 1)) in *.
    set (W1 := _isoweek1monday (y + 1)) in *.
    clearbody D D0 D1 W W0 W1.
    assert (Hk1 : k = 1) by lia. subst k.
    assert (Hgap : W - W0 = 364 \/ W - W0 = 371)
      by (Z.to_euclidean_division_equations; lia).
    destruct ((t - W0) / 7 <? 0) eqn:E0;
      [apply Z.ltb_lt in E0; exfalso;
       Z.to_euclidean_division_equations; lia|].
    destruct (52 <=? (t - W0) / 7) eqn:E52;
      [|apply Z.leb_gt in E52; exfalso;
        Z.to_euclidean_division_equations; lia].
    destruct (W <=? t) eqn:EW; [|apply Z.leb_gt in EW; lia].
    triple; Z.to_euclidean_division_equations; lia.
  - set (D := _days_before_year y) in *.
    set (D1 := _days_before_year (y + 1)) in *.
    set (W := _isoweek1monday y) in *.
    set (W1 := _isoweek1monday (y + 1)) in *.
    clearbody D D1 W W1.
    destruct ((t - W) / 7 <? 0) eqn:E0;
      [apply Z.ltb_lt in E0; exfalso;
       Z.to_euclidean_division_equations; lia|].
    assert (Hnext : t < W1) by (Z.to_euclidean_division_equations; lia).
    destruct (52 <=? (t - W) / 7) eqn:E52.
    + destruct (W1 <=? t) eqn:EW; [apply Z.leb_le in EW; lia|].
      triple; Z.to_euclidean_division_equations; lia.
    + triple; Z.to_euclidean_division_equations; lia.
  - (* the last days of the last week fall in the next calendar year *)
    replace (y + 1 - 1) with y by lia.
    set (D := _days_before_year y) in *.
    set (D1 := _days_before_year (y + 1)) in *.
    set (D2 := _days_before_year (y + 1 + 1)) in *.
    set (W := _isoweek1monday y) in *.
    set (W1 := _isoweek1monday (y + 1)) in *.
    clearbody D D1 D2 W W1.
    assert (Hnext : t < W1) by (Z.to_euclidean_division_equations; lia).
    destruct ((t - W1) / 7 <? 0) eqn:E0;
      [|apply Z.ltb_ge in E0; exfalso;
        Z.to_euclidean_division_equations; lia].
    triple; Z.to_euclidean_division_equations; lia.
Qed.

(** ** The weekly column *)

Lemma bind_ok {A B} (a : A) (k : A -> result B) : (Ok a ≫= k) = k a.
Proof. reflexivity. Qed.

Lemma datetime_valid (y m d : Z) :
  1 <= y <= 9999 -> 1 <= m <= 12 -> 1 <= d <= _days_in_month y m ->
  datetime y m d = Ok {| year := y; month := m; day := d |}.
Proof.
  intros Hy Hm Hd. unfold datetime, MINYEAR, MAXYEAR.
  rewrite (proj2 (Z.leb_le 1 y)), (proj2 (Z.leb_le y 9999)) by lia.
  rewrite (proj2 (Z.leb_le 1 m)), (proj2 (Z.leb_le m 12)) by lia.
  rewrite (proj2 (Z.leb_le 1 d)), (proj2 (Z.leb_le d _)) by lia.
  reflexivity.
Qed.

Lemma timedelta_small (days : Z) :
  -999999999 <= days <= 999999999 -> timedelta days = Ok days.
Proof.
  intros H. unfold timedelta.
  rewrite (proj2 (Z.leb_le _ days)), (proj2 (Z.leb_le days _)) by lia.
  reflexivity.
Qed.

Lemma add_in_range (d : t) (delta : Z) :
  0 < toordinal d + delta <= _MAXORDINAL ->
  add d delta = Ok (of_ordinal (toordinal d + delta)).
Proof.
  intros H. unfold add.
  rewrite (proj2 (Z.ltb_lt 0 _)), (proj2 (Z.leb_le _ _MAXORDINAL)) by lia.
  reflexivity.
Qed.

Lemma week1_monday_bounds (y : Z) :
  1 <= y ->
  1 <= week1_monday y
  /\ _days_before_year y - 2 <= week1_monday y <= _days_before_year y + 4
  /\ (week1_monday y + 6) mod 7 = 0.
Proof.
  intros Hy. pose proof (isoweek1monday_spec y) as (Hmon & Hnear & Heq).
  rewrite Heq in *. split; [|split; assumption].
  destruct (decide (y = 1)) as [->|Hne]; [vm_compute; discriminate|].
  pose proof (days_before_year_mono 1 y ltac:(lia)) as Hmono.
  change (_days_before_year 1) with 0 in Hmono. lia.
Qed.

Lemma maxordinal_year (y : Z) :
  y <= 9999 -> _days_before_year (y + 1) <= _MAXORDINAL.
Proof.
  intros Hy. change _MAXORDINAL with (_days_before_year 10000).
  destruct (decide (y = 9999)) as [->|Hne]; [reflexivity|].
  pose proof (days_before_year_mono (y + 1) 10000 ltac:(lia)). lia.
Qed.

Lemma iso_anchor_value (y : Z) :
  1 <= y <= 9999 ->
  GoalTrackerPDF.iso_anchor y
  = Ok (of_ordinal (week1_monday y), start_iso_week y).
Proof.
  intros Hy. unfold GoalTrackerPDF.iso_anchor.
  rewrite (datetime_valid y 1 4)
    by (try lia; unfold _days_in_month; eval_tables; cbn; lia).
  rewrite bind_ok.
  set (jan4 := {| year := y; month := 1; day := 4 |}).
  assert (Hwd : weekday jan4 = (_ymd2ord y 1 4 + 6) mod 7) by reflexivity.
  rewrite timedelta_small
    by (rewrite Hwd; Z.to_euclidean_division_equations; lia).
  rewrite bind_ok.
  destruct (week1_monday_bounds y ltac:(lia)) as (Hpos & Hnear & _).
  pose proof (maxordinal_year y ltac:(lia)) as Hmax.
  pose proof (days_before_year_succ y) as Hsucc.
  assert (Hm : toordinal jan4 + - weekday jan4 = week1_monday y) by reflexivity.
  unfold sub. rewrite add_in_range; rewrite Hm;
    [|destruct (_is_leap y); lia].
  rewrite bind_ok.
  rewrite (datetime_valid y 12 28)
    by (try lia; unfold _days_in_month; eval_tables; cbn; lia).
  reflexivity.
Qed.

(** The ISO weeks shown for a year exist in that year, and their Fridays
    are dates the module can represent. *)
Lemma shown_week_in_year (y row : Z) :
  1 <= y <= 9999 -> 1 <= row <= 52 ->
  1 <= start_iso_week y + row - 1
  /\ (start_iso_week y + row - 1 <= 52
      \/ (start_iso_week y + row - 1 = 53 /\ has_iso_53 y = true))
  /\ week1_monday y + 7 * (start_iso_week y + row - 1 - 1) + 4 <= _MAXORDINAL.
Proof.
  intros Hy Hrow.
  destruct (week1_monday_bounds y ltac:(lia)) as (Hpos & Hnear & _).
  pose proof (maxordinal_year y ltac:(lia)) as Hmax.
  pose proof (days_before_year_succ y) as Hsucc.
  pose proof (has_iso_53_iff y) as H53.
  unfold start_iso_week. destruct (has_iso_53 y) eqn:E.
  - pose proof (proj1 H53 eq_refl) as Hlate.
    assert (Hne : y <> 9999) by (intros ->; vm_compute in E; discriminate).
    pose proof (days_before_year_mono (y + 1) 10000 ltac:(lia)) as Hmono.
    change (_days_before_year 10000) with _MAXORDINAL in Hmono.
    split; [lia|]. split; [lia|]. destruct (_is_leap y); lia.
  - split; [lia|]. split; [lia|]. destruct (_is_leap y); lia.
Qed.

Lemma date_range_for_row_value (y row : Z) :
  1 <= y <= 9999 -> 1 <= row <= 52 ->
  let monday :=
    of_ordinal (week1_monday y + 7 * (start_iso_week y + row - 1 - 1)) in
  let friday :=
    of_ordinal (week1_monday y + 7 * (start_iso_week y + row - 1 - 1) + 4) in
  GoalTrackerPDF.date_range_for_row y row
  = Ok (monday, friday, str (day monday) +:+ "-" +:+ str (day friday)).
Proof.
  intros Hy Hrow monday friday.
  destruct (shown_week_in_year y row Hy Hrow) as (Hk & Hlast & Hmax).
  destruct (week1_monday_bounds y ltac:(lia)) as (Hpos & _ & _).
  unfold GoalTrackerPDF.date_range_for_row.
  rewrite iso_anchor_value by exact Hy. rewrite bind_ok.
  unfold GoalTrackerPDF.row_date_range.
  set (k := start_iso_week y + row - 1) in *.
  rewrite (timedelta_small ((k - 1) * 7)) by lia. rewrite bind_ok.
  rewrite add_in_range; rewrite toordinal_of_ordinal by lia; [|lia].
  rewrite bind_ok.
  rewrite (timedelta_small 4) by lia. rewrite bind_ok.
  replace (week1_monday y + (k - 1) * 7) with (week1_monday y + 7 * (k - 1))
    by lia.
  rewrite add_in_range; rewrite toordinal_of_ordinal by lia; [|lia].
  reflexivity.
Qed.

(** Years the module cannot represent are refused before any row. *)
Lemma date_range_for_row_bad_year (y row : Z) :
  y < 1 \/ 9999 < y ->
  GoalTrackerPDF.date_range_for_row y row = Raise ValueError.
Proof.
  intros Hy. unfold GoalTrackerPDF.date_range_for_row,
    GoalTrackerPDF.iso_anchor, datetime, MINYEAR, MAXYEAR.
  destruct (1 <=? y) eqn:E1, (y <=? 9999) eqn:E2; try reflexivity.
  apply Z.leb_le in E1, E2. lia.
Qed.

(** C5: for a year the module can represent and a row 1..52, the row's
    dates are returned (nothing raises); row 1 is ISO week 2 when
    December 28 lies in ISO week 53 and ISO week 1 otherwise; the start is
    the Monday on or before January 4 plus 7*(isoWeekNumber-1) days and the
    end is four days later; [isocalendar] reports them as Monday and Friday
    of that ISO week of the year.  For 2020 the first row is labelled
    "6-10". *)
Theorem weekly_date_range_spec :
  (forall year row, 1 <= year <= 9999 -> 1 <= row <= 52 ->
     exists jan4 dec28 monday friday,
       datetime year 1 4 = Ok jan4
       /\ datetime year 12 28 = Ok dec28
       /\ GoalTrackerPDF.date_range_for_row year row
          = Ok (monday, friday, str (day monday) +:+ "-" +:+ str (day friday))
       /\ let iso_week_number :=
            (if (isocalendar dec28).1.2 =? 53 then 2 else 1) + row - 1 in
          let week1 := toordinal jan4 - weekday jan4 in
          (week1 + 6) mod 7 = 0
          /\ toordinal jan4 - 6 <= week1 <= toordinal jan4
          /\ toordinal monday = week1 + 7 * (iso_week_number - 1)
          /\ toordinal friday = toordinal monday + 4
          /\ isocalendar monday = (year, iso_week_number, 1)
          /\ isocalendar friday = (year, iso_week_number, 5))
  /\ (isocalendar {| year := 2020; month := 12; day := 28 |}).1.2 = 53
  /\ GoalTrackerPDF.date_range_for_row 2020 1
     = Ok ({| year := 2020; month := 1; day := 6 |},
           {| year := 2020; month := 1; day := 10 |}, "6-10"%string)
  /\ exists rest, GoalTrackerPDF.weekly_labels 2020 = Ok ("6-10"%string :: rest).
Proof.
  split; [|split; [|split]].
  - intros y row Hy Hrow.
    destruct (shown_week_in_year y row Hy Hrow) as (Hk & Hlast & Hmax).
    destruct (week1_monday_bounds y ltac:(lia)) as (Hpos & Hnear & Hmon).
    exists {| year := y; month := 1; day := 4 |},
           {| year := y; month := 12; day := 28 |}.
    eexists. eexists.
    split; [apply datetime_valid;
            try lia; unfold _days_in_month; eval_tables; cbn; lia|].
    split; [apply datetime_valid;
            try lia; unfold _days_in_month; eval_tables; cbn; lia|].
    split; [apply date_range_for_row_value; assumption|].
    cbv zeta. fold (has_iso_53 y). fold (start_iso_week y).
    change (toordinal {| year := y; month := 1; day := 4 |}
            - weekday {| year := y; month := 1; day := 4 |})
      with (week1_monday y).
    rewrite !toordinal_of_ordinal by lia.
    pose proof (ymd2ord_jan y 4) as Hjan4.
    change (toordinal {| year := y; month := 1; day := 4 |})
      with (_ymd2ord y 1 4).
    split; [exact Hmon|]. split; [lia|]. split; [reflexivity|].
    split; [reflexivity|]. split.
    + rewrite <- (Z.add_0_r (week1_monday y + _)).
      apply isocalendar_of_iso_week; try assumption; lia.
    + apply isocalendar_of_iso_week; try assumption; lia.
  - vm_compute. reflexivity.
  - vm_compute. reflexivity.
  - eexists. vm_compute. reflexivity.
Qed.

Lemma weekly_date_range_spec_witness :
  exists monday friday label,
    GoalTrackerPDF.date_range_for_row 2023 1 = Ok (monday, friday, label)
    /\ toordinal friday = toordinal monday + 4
    /\ isocalendar monday = (2023, 1, 1)
    /\ isocalendar friday = (2023, 1, 5).
Proof.
  destruct (proj1 weekly_date_range_spec 2023 1 ltac:(lia) ltac:(lia))
    as (jan4 & dec28 & monday & friday & Hjan4 & Hdec28 & Hrange & Hrow).
  injection Hjan4 as <-. injection Hdec28 as <-.
  destruct Hrow as (_ & _ & _ & Hfri & Hiso_mon & Hiso_fri).
  exists monday, friday. eexists.
  split; [exact Hrange|]. split; [exact Hfri|].
  split; [exact Hiso_mon | exact Hiso_fri].
Defined.

(** * Further properties of the renderer *)

(** ** Renderers as writers of canvas calls *)

Lemma writes_ret {A} (a : A) : writes (mret a) a [].
Proof.
  intros c. unfold mret, canvas_ret, Canvas.ret. now rewrite app_nil_r.
Qed.

Lemma writes_lift {A} (a : A) : writes (Canvas.lift (Ok a)) a [].
Proof. intros c. unfold Canvas.lift. now rewrite app_nil_r. Qed.

Lemma writes_emit (k : Canvas.call) : writes (Canvas.emit k) tt [k].
Proof. intros c. reflexivity. Qed.

Lemma writes_bind {A B} (m : Canvas.M A) (k : A -> Canvas.M B) a ks b ks' :
  writes m a ks -> writes (k a) b ks' -> writes (m ≫= k) b (ks ++ ks').
Proof.
  intros Hm Hk c. unfold mbind, canvas_bind, Canvas.bind.
  rewrite Hm, Hk. now rewrite app_assoc.
Qed.

Lemma writes_lift_bind {A B} (a : A) (k : A -> Canvas.M B) b ks :
  writes (k a) b ks -> writes (Canvas.lift (Ok a) ≫= k) b ks.
Proof. intros H c. exact (H c). Qed.

Lemma writes_eq {A} (m : Canvas.M A) a ks ks' :
  writes m a ks -> ks = ks' -> writes m a ks'.
Proof. now intros H <-. Qed.

Lemma writes_for {A} (xs : list A) (body : A -> Canvas.M unit)
    (f : A -> list Canvas.call) :
  (forall x, x ∈ xs -> writes (body x) tt (f x)) ->
  writes (Canvas.for_ xs body) tt (xs ≫= f).
Proof.
  induction xs as [|x xs IH]; intros Hbody; cbn [Canvas.for_].
  - apply (writes_ret tt).
  - rewrite bind_cons.
    apply (writes_bind (body x) (fun _ => Canvas.for_ xs body) tt _ tt _).
    + apply Hbody. apply list_elem_of_here.
    + apply IH. intros y Hy. apply Hbody. now apply list_elem_of_further.
Qed.

(** A computation that raises at once leaves the canvas as it was. *)
Lemma raise_bind {A B} (e : exn) (k : A -> Canvas.M B) (c : Canvas.t) :
  (Canvas.lift (Raise e) ≫= k) c = (Raise e, c).
Proof. reflexivity. Qed.


Lemma raises_bind {A B} (m : Canvas.M A) (k : A -> Canvas.M B) e :
  (forall c, m c = (Raise e, c)) -> forall c, (m ≫= k) c = (Raise e, c).
Proof.
  intros Hm c. unfold mbind, canvas_bind, Canvas.bind. now rewrite Hm.
Qed.

Lemma writes_if {A} (b : bool) (m1 m2 : Canvas.M A) a ks1 ks2 :
  writes m1 a ks1 -> writes m2 a ks2 ->
  writes (if b then m1 else m2) a (if b then ks1 else ks2).
Proof. destruct b; auto. Qed.

(** The calls of a loop that updates a local variable. *)
Lemma writes_for_acc {A S} (xs : list A) (body : S -> A -> Canvas.M S)
    (step : S -> A -> S) (f : S -> A -> list Canvas.call) :
  (forall s x, writes (body s x) (step s x) (f s x)) ->
  forall s, writes (Canvas.for_acc xs s body) (fold_left step xs s)
              (scan_calls step f xs s).
Proof.
  intros Hbody. induction xs as [|x xs IH]; intros s; cbn.
  - apply (writes_ret s).
  - apply (writes_bind (body s x) (fun s' => Canvas.for_acc xs s' body)
             (step s x) _ _ _); [apply Hbody | apply IH].
Qed.

Ltac writer_step :=
  lazymatch goal with
  | |- writes (Canvas.emit _) _ _ => apply writes_emit
  | |- writes (mret _) _ _ => apply writes_ret
  | |- writes (_ ≫= _) _ _ => eapply writes_bind; cbv beta
  end.

Ltac writer :=
  eapply writes_eq; [repeat writer_step | cbn [app]; try reflexivity].

(** ** DrawingHelper *)

Lemma draw_rectangle_writes (x y w h sw : Q) (color : Z * Z * Z) :
  writes (DrawingHelper.draw_rectangle x y w h sw color) tt
    (rectangle_calls x y w h sw color).
Proof.
  unfold DrawingHelper.draw_rectangle, rectangle_calls.
  destruct (DrawingHelper.unit_rgb color) as [[r g] b]. writer.
Qed.

Lemma draw_line_writes (x1 y1 x2 y2 sw : Q) (color : Z * Z * Z)
    (dash : option (list Z)) :
  writes (DrawingHelper.draw_line x1 y1 x2 y2 sw color dash) tt
    (line_calls x1 y1 x2 y2 sw color dash).
Proof.
  unfold DrawingHelper.draw_line, line_calls.
  destruct (DrawingHelper.unit_rgb color) as [[r g] b].
  destruct (DrawingHelper.has_dash dash); writer.
Qed.

Lemma draw_text_writes (text : string) (x y : Q) (font : string) (size : Z)
    (color : Z * Z * Z) (align : string) :
  writes (DrawingHelper.draw_text text x y font size color align) tt
    (text_calls text x y font size color align).
Proof.
  unfold DrawingHelper.draw_text, text_calls.
  destruct (DrawingHelper.unit_rgb color) as [[r g] b].
  destruct (String.eqb align "right"); writer.
Qed.

(** X1: each helper returns after exactly one drawing call, made with the
    requested width and colour (and dash or font); afterwards the stroke
    colour (line, rectangle) or the fill colour (text) is black again, a
    dash that was given is back to solid, while the line width and the font
    stay as the helper set them and a line drawn without a dash inherits
    the canvas's current one. *)
Theorem drawing_helpers_restore_colour (p : pen) :
  (forall x1 y1 x2 y2 sw color dash,
     exists ks,
       writes (DrawingHelper.draw_line x1 y1 x2 y2 sw color dash) tt ks
       /\ drawn p ks =
            [ (Canvas.line x1 y1 x2 y2,
               {| pen_width := sw;
                  pen_stroke := DrawingHelper.unit_rgb color;
                  pen_fill := pen_fill p;
                  pen_dash := if DrawingHelper.has_dash dash
                              then default [] dash else pen_dash p;
                  pen_font := pen_font p |}) ]
       /\ pen_after p ks =
            {| pen_width := sw; pen_stroke := black; pen_fill := pen_fill p;
               pen_dash := if DrawingHelper.has_dash dash then []
                           else pen_dash p;
               pen_font := pen_font p |})
  /\ (forall x y w h sw color,
        exists ks,
          writes (DrawingHelper.draw_rectangle x y w h sw color) tt ks
          /\ drawn p ks =
               [ (Canvas.rect x y w h true false,
                  {| pen_width := sw;
                     pen_stroke := DrawingHelper.unit_rgb color;
                     pen_fill := pen_fill p; pen_dash := pen_dash p;
                     pen_font := pen_font p |}) ]
          /\ pen_after p ks =
               {| pen_width := sw; pen_stroke := black;
                  pen_fill := pen_fill p; pen_dash := pen_dash p;
                  pen_font := pen_font p |})
  /\ (forall text x y font size color align,
        exists ks,
          writes (DrawingHelper.draw_text text x y font size color align) tt ks
          /\ drawn p ks =
               [ (if String.eqb align "right"
                  then Canvas.drawRightString x y text
                  else Canvas.drawString x y text,
                  {| pen_width := pen_width p; pen_stroke := pen_stroke p;
                     pen_fill := DrawingHelper.unit_rgb color;
                     pen_dash := pen_dash p; pen_font := (font, size) |}) ]
          /\ pen_after p ks =
               {| pen_width := pen_width p; pen_stroke := pen_stroke p;
                  pen_fill := black; pen_dash := pen_dash p;
                  pen_font := (font, size) |}).
Proof.
  split; [|split].
  - intros x1 y1 x2 y2 sw color dash. eexists.
    split; [apply draw_line_writes|].
    destruct color as [[r g] b]. unfold line_calls.
    destruct (DrawingHelper.has_dash dash); split; reflexivity.
  - intros x y w h sw color. eexists.
    split; [apply draw_rectangle_writes|].
    destruct color as [[r g] b]. split; reflexivity.
  - intros text x y font size color align. eexists.
    split; [apply draw_text_writes|].
    destruct color as [[r g] b]. unfold text_calls.
    destruct (String.eqb align "right"); split; reflexivity.
Qed.

(** ** Columns *)

Lemma dict_getitem_Some `{Countable K} {V} (d : gmap K V) k v :
  d !! k = Some v -> dict_getitem d k = Ok v.
Proof. intros E. unfold dict_getitem. now rewrite E. Qed.

Lemma has_columns_values (lc : gmap string Q) :
  has_columns lc = true ->
  exists q m w cb,
    lc !! "quarterly_column_width"%string = Some q
    /\ lc !! "monthly_column_width"%string = Some m
    /\ lc !! "weekly_column_width"%string = Some w
    /\ lc !! "checkbox_size"%string = Some cb.
Proof.
  unfold has_columns, column_keys. cbn [forallb].
  rewrite !andb_true_iff, !bool_decide_eq_true.
  intros ([q Hq] & [m Hm] & [w Hw] & [cb Hcb] & _).
  exists q, m, w, cb. auto.
Qed.

Lemma has_columns_missing (lc : gmap string Q) :
  has_columns lc = false ->
  lc !! "quarterly_column_width"%string = None
  \/ lc !! "monthly_column_width"%string = None
  \/ lc !! "weekly_column_width"%string = None
  \/ lc !! "checkbox_size"%string = None.
Proof.
  unfold has_columns, column_keys. cbn [forallb].
  destruct (lc !! "quarterly_column_width"%string); [|auto].
  destruct (lc !! "monthly_column_width"%string); [|auto].
  destruct (lc !! "weekly_column_width"%string); [|auto].
  destruct (lc !! "checkbox_size"%string); [|auto].
  intros H. exfalso. revert H.
  rewrite !(bool_decide_eq_true_2 _ (mk_is_Some _ _ eq_refl)). discriminate.
Qed.

Lemma columns_present (lm : LayoutManager.t) (q m w cb : Q) :
  LayoutManager.layout_config lm !! "quarterly_column_width"%string = Some q ->
  LayoutManager.layout_config lm !! "monthly_column_width"%string = Some m ->
  LayoutManager.layout_config lm !! "weekly_column_width"%string = Some w ->
  LayoutManager.layout_config lm !! "checkbox_size"%string = Some cb ->
  let xq := ((width (LayoutManager.page_config lm)
              - (q * inch + m * inch + w * inch + cb * inch)) / 2)%Q in
  LayoutManager.get_column_x_positions lm
  = Ok {[ "quarterly"%string := xq;
          "monthly"%string := (xq + q * inch)%Q;
          "weekly"%string := (xq + q * inch + m * inch)%Q;
          "checkbox"%string := (xq + q * inch + m * inch + w * inch)%Q ]}
  /\ LayoutManager.get_column_widths lm
     = Ok {[ "quarterly"%string := (q * inch)%Q;
             "monthly"%string := (m * inch)%Q;
             "weekly"%string := (w * inch)%Q;
             "checkbox"%string := (cb * inch)%Q ]}.
Proof.
  intros Hq Hm Hw Hcb xq.
  unfold LayoutManager.get_column_x_positions, LayoutManager.get_column_widths.
  rewrite !(dict_getitem_Some _ _ _ Hq), !(dict_getitem_Some _ _ _ Hm),
    !(dict_getitem_Some _ _ _ Hw), !(dict_getitem_Some _ _ _ Hcb).
  split; reflexivity.
Qed.

Lemma columns_missing (lm : LayoutManager.t) :
  has_columns (LayoutManager.layout_config lm) = false ->
  LayoutManager.get_column_x_positions lm = Raise KeyError
  /\ LayoutManager.get_column_widths lm = Raise KeyError.
Proof.
  intros Hmiss. apply has_columns_missing in Hmiss.
  unfold LayoutManager.get_column_x_positions, LayoutManager.get_column_widths,
    dict_getitem.
  destruct (LayoutManager.layout_config lm !! "quarterly_column_width"%string);
    [|split; reflexivity].
  destruct (LayoutManager.layout_config lm !! "monthly_column_width"%string);
    [|split; reflexivity].
  destruct (LayoutManager.layout_config lm !! "weekly_column_width"%string);
    [|split; reflexivity].
  destruct (LayoutManager.layout_config lm !! "checkbox_size"%string);
    [|split; reflexivity].
  destruct Hmiss as [H|[H|[H|H]]]; discriminate H.
Qed.

(** X2: the column getters return dicts with the four column names when the
    layout holds the four width keys, and raise [KeyError] (nothing else)
    when one of them is missing. *)
Theorem column_getters_need_widths (lm : LayoutManager.t) :
  (has_columns (LayoutManager.layout_config lm) = true ->
   exists pos wd,
     LayoutManager.get_column_x_positions lm = Ok pos
     /\ LayoutManager.get_column_widths lm = Ok wd
     /\ dom pos = {[ "quarterly"; "monthly"; "weekly"; "checkbox" ]}%string
     /\ dom wd = dom pos)
  /\ (has_columns (LayoutManager.layout_config lm) = false ->
      LayoutManager.get_column_x_positions lm = Raise KeyError
      /\ LayoutManager.get_column_widths lm = Raise KeyError).
Proof.
  split; [|apply columns_missing].
  intros Hcols.
  destruct (has_columns_values _ Hcols) as (q & m & w & cb & Hq & Hm & Hw & Hcb).
  destruct (columns_present lm q m w cb Hq Hm Hw Hcb) as [Hpos Hwd].
  eexists. eexists. split; [exact Hpos|]. split; [exact Hwd|].
  rewrite !dom_insert_L, !dom_singleton_L. split; [|reflexivity].
  apply set_eq. intros x. rewrite !elem_of_union, !elem_of_singleton. tauto.
Qed.

Lemma column_getters_need_widths_witness :
  (exists pos,
     LayoutManager.get_column_x_positions (letter_layout test_layout) = Ok pos)
  /\ LayoutManager.get_column_widths (letter_layout ∅) = Raise KeyError.
Proof.
  split.
  - destruct (proj1 (column_getters_need_widths (letter_layout test_layout)))
      as (pos & wd & Hpos & _); [reflexivity|].
    exists pos. exact Hpos.
  - apply (proj2 (column_getters_need_widths (letter_layout ∅))). reflexivity.
Defined.



(** ** Reading the calls of the helpers *)

Lemma omap_bind {A B C} (g : B -> option C) (xs : list A) (f : A -> list B) :
  omap g (xs ≫= f) = xs ≫= (fun x => omap g (f x)).
Proof.
  induction xs as [|x xs IH]; [reflexivity|].
  rewrite !bind_cons, omap_app, IH. reflexivity.
Qed.

Lemma bind_singletons {A B} (xs : list A) (f : A -> list B) (g : A -> B) :
  (forall x, f x = [g x]) -> xs ≫= f = g <$> xs.
Proof.
  intros Hf. induction xs as [|x xs IH]; [reflexivity|].
  rewrite bind_cons, fmap_cons, Hf, IH. reflexivity.
Qed.

Lemma bind_nils {A B} (xs : list A) (f : A -> list B) :
  (forall x, f x = []) -> xs ≫= f = [].
Proof.
  intros Hf. induction xs as [|x xs IH]; [reflexivity|].
  rewrite bind_cons, Hf, IH. reflexivity.
Qed.

Lemma bind_ext_all {A B} (xs : list A) (f g : A -> list B) :
  (forall x, f x = g x) -> xs ≫= f = xs ≫= g.
Proof.
  intros Hf. induction xs as [|x xs IH]; [reflexivity|].
  rewrite !bind_cons, Hf, IH. reflexivity.
Qed.


Lemma length_bind_ext {A B C} (xs : list A) (f : A -> list B) (g : A -> list C) :
  (forall x, length (f x) = length (g x)) ->
  length (xs ≫= f) = length (xs ≫= g).
Proof.
  intros H. induction xs as [|x xs IH]; [reflexivity|].
  rewrite !bind_cons, !length_app, H, IH. reflexivity.
Qed.

Section Reading.

Context {R : Type} (g : Canvas.call -> option R).

Lemma read_app (ks ks' : list Canvas.call) :
  omap g (ks ++ ks') = omap g ks ++ omap g ks'.
Proof. apply omap_app. Qed.

Lemma read_each {A} (xs : list A) (f : A -> list Canvas.call) (h : A -> R) :
  (forall x, omap g (f x) = [h x]) -> omap g (xs ≫= f) = h <$> xs.
Proof. intros H. rewrite omap_bind. now apply bind_singletons. Qed.

Lemma read_none {A} (xs : list A) (f : A -> list Canvas.call) :
  (forall x, omap g (f x) = []) -> omap g (xs ≫= f) = [].
Proof. intros H. rewrite omap_bind. now apply bind_nils. Qed.

End Reading.

Lemma outlines_app (ks ks' : list Canvas.call) :
  outlines (ks ++ ks') = outlines ks ++ outlines ks'.
Proof. apply omap_app. Qed.

Lemma fills_app (ks ks' : list Canvas.call) :
  fills (ks ++ ks') = fills ks ++ fills ks'.
Proof. apply omap_app. Qed.

Lemma strokes_app (ks ks' : list Canvas.call) :
  strokes (ks ++ ks') = strokes ks ++ strokes ks'.
Proof. apply omap_app. Qed.

Lemma labels_app (ks ks' : list Canvas.call) :
  labels (ks ++ ks') = labels ks ++ labels ks'.
Proof. apply omap_app. Qed.

Lemma read_rect (self : GoalTrackerPDF.t) sw key (box : Q * Q * Q * Q) :
  outlines (draw_rect self sw key box) = [box]
  /\ fills (draw_rect self sw key box) = []
  /\ strokes (draw_rect self sw key box) = []
  /\ labels (draw_rect self sw key box) = [].
Proof. destruct box as [[[x y] w] h]. repeat split. Qed.

Lemma read_stroke (self : GoalTrackerPDF.t) sw key (stroke : Q * Q * Q * Q) :
  outlines (draw_stroke self sw key stroke) = []
  /\ fills (draw_stroke self sw key stroke) = []
  /\ strokes (draw_stroke self sw key stroke) = [stroke]
  /\ labels (draw_stroke self sw key stroke) = [].
Proof. destruct stroke as [[[x1 y1] x2] y2]. repeat split. Qed.

Lemma read_stripe (self : GoalTrackerPDF.t) (box : Q * Q * Q * Q) :
  outlines (draw_stripe self box) = []
  /\ fills (draw_stripe self box) = [box]
  /\ strokes (draw_stripe self box) = []
  /\ labels (draw_stripe self box) = [].
Proof. destruct box as [[[x y] w] h]. repeat split. Qed.

Lemma read_text text (x y : Q) font size (color : Z * Z * Z) align :
  outlines (text_calls text x y font size color align) = []
  /\ fills (text_calls text x y font size color align) = []
  /\ strokes (text_calls text x y font size color align) = []
  /\ labels (text_calls text x y font size color align) = [(x, y, text)].
Proof.
  unfold text_calls. destruct (String.eqb align "right"); repeat split.
Qed.

(** ** What the constructor establishes *)

Lemma pdf_init_inv (config : GoalTrackerConfig.t) (year : Z)
    (self : GoalTrackerPDF.t) :
  GoalTrackerPDF.__init__ config year = Ok self ->
  GoalTrackerPDF.config self = config
  /\ GoalTrackerPDF.year self = year
  /\ GoalTrackerPDF.colors self = GoalTrackerConfig.get_colors config
  /\ GoalTrackerConfig.get_layout config = Ok (GoalTrackerPDF.layout_config self)
  /\ GoalTrackerConfig.get_page_config config
     = Ok (GoalTrackerPDF.page_config self)
  /\ GoalTrackerConfig.get_font_config config
     = Ok (GoalTrackerPDF.font_config self)
  /\ LayoutManager.__init__ (GoalTrackerPDF.page_config self)
       (GoalTrackerPDF.layout_config self) = Ok (GoalTrackerPDF.layout self)
  /\ LayoutManager.layout_config (GoalTrackerPDF.layout self)
     = GoalTrackerPDF.layout_config self
  /\ LayoutManager.page_config (GoalTrackerPDF.layout self)
     = GoalTrackerPDF.page_config self.
Proof.
  unfold GoalTrackerPDF.__init__.
  destruct (GoalTrackerConfig.get_page_config config) as [pc|] eqn:Epc;
    [|discriminate].
  destruct (GoalTrackerConfig.get_font_config config) as [fc|] eqn:Efc;
    [|discriminate].
  destruct (GoalTrackerConfig.get_layout config) as [lc|] eqn:Elc;
    [|discriminate].
  destruct (init_returns pc lc) as (lm & Hlm & Hpc & _).
  cbn [mbind result_bind Py.bind]. rewrite Hlm.
  cbn [mbind result_bind Py.bind]. intros [= <-].
  cbn. repeat split; try reflexivity; try assumption.
  - unfold LayoutManager.__init__ in Hlm.
    destruct (LayoutManager._calculate_dimensions pc) as [[[aw ah] r]|];
      [|discriminate].
    injection Hlm as <-. reflexivity.
Qed.

Lemma month_lines_lookup (lines : gmap Z (list Z)) (month_num : Z) :
  GoalTrackerPDF.build_month_lines = Ok lines ->
  1 <= month_num < 1 + 12 ->
  dict_getitem lines month_num
  = Ok [month_start month_num; month_start month_num + 1;
        month_start month_num + 2; month_start month_num + 3].
Proof.
  rewrite build_month_lines_value. intros [= <-]. revert month_num.
  refine (range_enum 1 12 _ _). vm_compute. reflexivity.
Qed.


Section Rendered.

Variable config : GoalTrackerConfig.t.
Variable year : Z.
Variable self : GoalTrackerPDF.t.

Hypothesis Hinit : GoalTrackerPDF.__init__ config year = Ok self.
Hypothesis Hcols : has_columns (GoalTrackerPDF.layout_config self) = true.

Lemma rendered_layout :
  GoalTrackerConfig.get_layout (GoalTrackerPDF.config self)
  = Ok (GoalTrackerPDF.layout_config self).
Proof.
  destruct (pdf_init_inv _ _ _ Hinit) as (-> & _ & _ & H & _). exact H.
Qed.

Lemma rendered_colour (key : string) :
  key ∈ colour_names ->
  dict_getitem (GoalTrackerPDF.colors self) key = Ok (colour_of self key).
Proof.
  unfold colour_of.
  destruct (pdf_init_inv _ _ _ Hinit) as (_ & _ & -> & _).
  intros Hkey. unfold colour_names in Hkey.
  repeat (apply elem_of_cons in Hkey as [-> | Hkey]);
    [| | | | | now apply elem_of_nil in Hkey]; reflexivity.
Qed.

Lemma rendered_columns :
  exists pos wd cb,
    LayoutManager.get_column_x_positions (GoalTrackerPDF.layout self) = Ok pos
    /\ LayoutManager.get_column_widths (GoalTrackerPDF.layout self) = Ok wd
    /\ (forall name, name ∈ column_names ->
          dict_getitem pos name = Ok (column_x self name)
          /\ dict_getitem wd name = Ok (column_width self name))
    /\ GoalTrackerPDF.layout_config self !! "checkbox_size"%string = Some cb
    /\ column_width self "checkbox" = (cb * inch)%Q
    /\ column_x self "monthly"
       = (column_x self "quarterly" + column_width self "quarterly")%Q
    /\ column_x self "weekly"
       = (column_x self "monthly" + column_width self "monthly")%Q
    /\ column_x self "checkbox"
       = (column_x self "weekly" + column_width self "weekly")%Q.
Proof.
  destruct (pdf_init_inv _ _ _ Hinit) as (_ & _ & _ & _ & _ & _ & _ & Hlc & _).
  destruct (has_columns_values _ Hcols) as (q & m & w & cb & Hq & Hm & Hw & Hcb).
  destruct (columns_present (GoalTrackerPDF.layout self) q m w cb)
    as [Hpos Hwd]; try (rewrite Hlc; assumption).
  eexists. eexists. exists cb.
  split; [exact Hpos|]. split; [exact Hwd|].
  unfold column_x, column_width. rewrite Hpos, Hwd.
  split; [|repeat split; try assumption; reflexivity].
  intros name Hname. unfold column_names in Hname.
  repeat (apply elem_of_cons in Hname as [-> | Hname]);
    [| | | | now apply elem_of_nil in Hname]; split; reflexivity.
Qed.

Ltac in_names :=
  repeat first [apply list_elem_of_here | apply list_elem_of_further].

(** Looks a column or a colour up by the facts of the generator. *)
Ltac render_lookup :=
  match goal with
  | Hn : (forall name, name ∈ column_names -> _)
    |- writes (Canvas.lift (dict_getitem _ ?name)) _ _ =>
      first [ rewrite (proj1 (Hn name ltac:(in_names)))
            | rewrite (proj2 (Hn name ltac:(in_names))) ];
      apply writes_lift
  | |- writes (Canvas.lift (dict_getitem (GoalTrackerPDF.colors _) ?name)) _ _ =>
      rewrite (rendered_colour name ltac:(in_names)); apply writes_lift
  end.

Ltac render_step :=
  lazymatch goal with
  | H : writes ?m _ _ |- writes ?m _ _ => exact H
  | |- writes (Canvas.emit _) _ _ => apply writes_emit
  | |- writes (Canvas.lift (Ok _)) _ _ => apply writes_lift
  | |- writes (Canvas.lift (dict_getitem _ _)) _ _ => render_lookup
  | |- writes (mret _) _ _ => apply writes_ret
  | |- writes (DrawingHelper.draw_line _ _ _ _ _ _ _) _ _ =>
      apply draw_line_writes
  | |- writes (DrawingHelper.draw_rectangle _ _ _ _ _ _) _ _ =>
      apply draw_rectangle_writes
  | |- writes (DrawingHelper.draw_text _ _ _ _ _ _ _) _ _ =>
      apply draw_text_writes
  | |- writes (Canvas.for_ _ _) _ _ =>
      eapply writes_for; intros ? _; cbv beta
  | |- writes (Canvas.for_acc _ _ _) _ _ =>
      eapply writes_for_acc; intros ? ?; cbv beta
  | |- writes (if _ then _ else _) _ _ => eapply writes_if
  | |- writes (_ ≫= _) _ _ => eapply writes_bind; cbv beta match
  end.

Ltac render :=
  eapply writes_eq; [repeat render_step | cbn [app]; try reflexivity].

(** As [render_step], but stops in front of a loop. *)
Ltac render_head :=
  lazymatch goal with
  | |- writes (Canvas.for_ _ _) _ _ => fail
  | |- writes (Canvas.for_acc _ _ _) _ _ => fail
  | _ => render_step
  end.

Lemma rendered_checkbox_side :
  dict_getitem (GoalTrackerPDF.layout_config self) "checkbox_size"%string
  = Ok (dict_get (GoalTrackerPDF.layout_config self) "checkbox_size"%string
          0%Q)
  /\ column_width self "checkbox" = checkbox_side self.
Proof.
  destruct rendered_columns as (pos & wd & cb & _ & _ & _ & Hcb & Hwc & _).
  unfold checkbox_side, dict_getitem, dict_get. rewrite Hcb, Hwc.
  split; reflexivity.
Qed.

Lemma draw_checkbox_column_writes :
  writes (GoalTrackerPDF.draw_checkbox_column self) tt (checkbox_trace self).
Proof.
  destruct rendered_columns as (pos & wd & cb & Hpos & Hwd & Hnames & _).
  destruct rendered_checkbox_side as [Hside _].
  unfold GoalTrackerPDF.draw_checkbox_column.
  rewrite Hpos, Hwd, Hside. render.
Qed.

Section GridParts.

Variables pos wd : gmap string Q.
Hypothesis Hnames :
  forall name, name ∈ column_names ->
    dict_getitem pos name = Ok (column_x self name)
    /\ dict_getitem wd name = Ok (column_width self name).

Lemma draw_grid_week_lines_writes :
  writes (GoalTrackerPDF.draw_grid_week_lines self
            (GoalTrackerPDF.layout_config self) pos wd (row_height_of self))
    tt (week_lines_trace self).
Proof. unfold GoalTrackerPDF.draw_grid_week_lines. render. Qed.

Lemma draw_grid_quarter_boxes_writes :
  writes (GoalTrackerPDF.draw_grid_quarter_boxes self pos wd
            (row_height_of self)) tt (quarter_boxes_trace self).
Proof. unfold GoalTrackerPDF.draw_grid_quarter_boxes. render. Qed.

Lemma draw_grid_stripes_writes :
  writes (GoalTrackerPDF.draw_grid_stripes self
            (GoalTrackerPDF.layout_config self) pos wd (row_height_of self))
    tt (stripes_trace self).
Proof.
  unfold GoalTrackerPDF.draw_grid_stripes, stripes_trace, stripes_on,
    draw_stripe, column_stripe, stripe_calls.
  eapply writes_if; [|apply writes_ret].
  rewrite (rendered_colour "row_stripe"%string ltac:(in_names)).
  apply writes_lift_bind.
  destruct (DrawingHelper.unit_rgb (colour_of self "row_stripe"))
    as [[sr sg] sb].
  eapply writes_eq; [repeat render_step|].
  cbn [app fst snd]. reflexivity.
Qed.

Lemma draw_grid_month_boxes_writes :
  writes (GoalTrackerPDF.draw_grid_month_boxes self pos wd
            (row_height_of self)) tt (month_boxes_trace self).
Proof.
  unfold GoalTrackerPDF.draw_grid_month_boxes.
  destruct GoalTrackerPDF.build_month_lines as [lines|] eqn:Hlines;
    [|rewrite build_month_lines_value in Hlines; discriminate].
  apply writes_lift_bind. unfold month_boxes_trace.
  apply writes_for. intros month_num Hmonth.
  apply elem_of_seqZ in Hmonth.
  rewrite (month_lines_lookup lines month_num Hlines) by lia.
  apply writes_lift_bind. cbv beta match.
  change (getitem [month_start month_num; month_start month_num + 1;
                   month_start month_num + 2; month_start month_num + 3] 0)
    with (Ok (month_start month_num)).
  change (getitem [month_start month_num; month_start month_num + 1;
                   month_start month_num + 2; month_start month_num + 3]
            (-1))
    with (Ok (month_start month_num + 3)).
  render.
Qed.

End GridParts.

Lemma draw_grid_writes :
  writes (GoalTrackerPDF.draw_grid self) tt (grid_trace self).
Proof.
  destruct rendered_columns as (pos & wd & cb & Hpos & Hwd & Hnames & _).
  pose proof (draw_grid_stripes_writes pos wd Hnames) as H1.
  pose proof (draw_grid_week_lines_writes pos wd Hnames) as H2.
  pose proof (draw_grid_quarter_boxes_writes pos wd Hnames) as H3.
  pose proof (draw_grid_month_boxes_writes pos wd Hnames) as H4.
  unfold GoalTrackerPDF.draw_grid. rewrite Hpos, Hwd, rendered_layout.
  fold (row_height_of self). unfold grid_trace. render.
Qed.


(** What [draw_grid] puts on the canvas, kind by kind. *)
Lemma grid_trace_reads :
  outlines (grid_trace self)
  = (quarter_box self <$> range 1 5) ++ (month_box self <$> range 1 13)
  /\ strokes (grid_trace self) = week_line self <$> range 1 53
  /\ labels (grid_trace self) = []
  /\ fills (grid_trace self)
     = (if stripes_on self then range 1 53 ≫= week_stripes self else [])
  /\ outlines (stripes_trace self) = []
  /\ strokes (stripes_trace self) = []
  /\ fills (week_lines_trace self ++ quarter_boxes_trace self
            ++ month_boxes_trace self) = [].
Proof.
  assert (Hstripes :
    outlines (stripes_trace self) = [] /\ strokes (stripes_trace self) = []
    /\ labels (stripes_trace self) = []
    /\ fills (stripes_trace self)
       = (if stripes_on self then range 1 53 ≫= week_stripes self else [])).
  { unfold stripes_trace. destruct (stripes_on self); [|repeat split].
    split; [|split; [|split]].
    - apply read_none. intros week. rewrite read_app.
      destruct (month_striped week), (week_striped week);
        rewrite ?(proj1 (read_stripe _ _)); reflexivity.
    - apply read_none. intros week. rewrite read_app.
      destruct (month_striped week), (week_striped week);
        rewrite ?(proj1 (proj2 (proj2 (read_stripe _ _)))); reflexivity.
    - apply read_none. intros week. rewrite read_app.
      destruct (month_striped week), (week_striped week);
        rewrite ?(proj2 (proj2 (proj2 (read_stripe _ _)))); reflexivity.
    - unfold fills. rewrite omap_bind. apply bind_ext_all. intros week.
      rewrite read_app. fold fills. unfold week_stripes.
      destruct (month_striped week), (week_striped week);
        rewrite ?(proj1 (proj2 (read_stripe _ _))); reflexivity. }
  destruct Hstripes as (Ho & Hs & Hl & Hf).
  assert (Hlines :
    outlines (week_lines_trace self) = []
    /\ strokes (week_lines_trace self) = week_line self <$> range 1 53
    /\ labels (week_lines_trace self) = [] /\ fills (week_lines_trace self) = []).
  { unfold week_lines_trace. split; [|split; [|split]].
    - apply read_none. intros week. apply read_stroke.
    - apply read_each. intros week. apply read_stroke.
    - apply read_none. intros week. apply read_stroke.
    - apply read_none. intros week. apply read_stroke. }
  assert (Hboxes : forall sw (box : Z -> Q * Q * Q * Q) xs,
    outlines (xs ≫= fun n => draw_rect self sw "grid_line" (box n)) = box <$> xs
    /\ strokes (xs ≫= fun n => draw_rect self sw "grid_line" (box n)) = []
    /\ labels (xs ≫= fun n => draw_rect self sw "grid_line" (box n)) = []
    /\ fills (xs ≫= fun n => draw_rect self sw "grid_line" (box n)) = []).
  { intros sw box xs. split; [|split; [|split]].
    - apply read_each. intros n. apply read_rect.
    - apply read_none. intros n. apply read_rect.
    - apply read_none. intros n. apply read_rect.
    - apply read_none. intros n. apply read_rect. }
  destruct Hlines as (Hlo & Hls & Hll & Hlf).
  destruct (Hboxes 1%Q (quarter_box self) (range 1 5)) as (Hqo & Hqs & Hql & Hqf).
  destruct (Hboxes (75 # 100)%Q (month_box self) (range 1 13))
    as (Hmo & Hms & Hml & Hmf).
  fold (quarter_boxes_trace self) in Hqo, Hqs, Hql, Hqf.
  fold (month_boxes_trace self) in Hmo, Hms, Hml, Hmf.
  unfold grid_trace.
  rewrite !outlines_app, !strokes_app, !labels_app, !fills_app.
  rewrite Ho, Hs, Hl, Hf, Hlo, Hls, Hll, Hlf, Hqo, Hqs, Hql, Hqf,
    Hmo, Hms, Hml, Hmf.
  rewrite !app_nil_r. cbn [app]. repeat split; reflexivity.
Qed.






(** X7: [draw_grid] paints stripes only when [show_row_stripes] is set to a
    true value (a missing key counts as false), and paints them before any
    line or box.  When set there are exactly 50 stripes: for each week, one
    over the monthly column if the week's month is even and one over the
    weekly column if the week is even, each one row high on that row. *)
Theorem stripes_only_when_enabled :
  exists ks_stripes ks_rest,
    writes (GoalTrackerPDF.draw_grid self) tt (ks_stripes ++ ks_rest)
    /\ fills ks_rest = []
    /\ outlines ks_stripes = [] /\ strokes ks_stripes = []
    /\ (truthy (dict_get (GoalTrackerPDF.layout_config self)
                  "show_row_stripes"%string 0%Q) = false ->
        ks_stripes = [])
    /\ (truthy (dict_get (GoalTrackerPDF.layout_config self)
                  "show_row_stripes"%string 0%Q) = true ->
        length (fills ks_stripes) = 50%nat
        /\ fills ks_stripes =
             range 1 53 ≫= fun week =>
               (if (0 <? LayoutManager.get_month_for_week week)
                   && (LayoutManager.get_month_for_week week mod 2 =? 0)
                then [(column_x self "monthly", row_bottom self week,
                       column_width self "monthly", row_height_of self)]
                else [])
               ++ (if week mod 2 =? 0
                   then [(column_x self "weekly", row_bottom self week,
                          column_width self "weekly", row_height_of self)]
                   else [])).
Proof.
  exists (stripes_trace self),
    (week_lines_trace self ++ quarter_boxes_trace self
     ++ month_boxes_trace self).
  split; [apply draw_grid_writes|].
  destruct grid_trace_reads as (_ & _ & _ & Hf & Ho & Hs & Hrest).
  split; [exact Hrest|]. split; [exact Ho|]. split; [exact Hs|].
  unfold grid_trace in Hf. rewrite fills_app, Hrest, app_nil_r in Hf.
  fold (stripes_on self). split.
  - intros Hoff. unfold stripes_trace. now rewrite Hoff.
  - intros Hon. rewrite Hf, Hon. split; [|reflexivity].
    rewrite (length_bind_ext _ _
               (fun week =>
                  (if month_striped week then [tt] else [])
                  ++ (if week_striped week then [tt] else []))).
    + vm_compute. reflexivity.
    + intros week. unfold week_stripes. rewrite !length_app.
      destruct (month_striped week), (week_striped week); reflexivity.
Qed.



(** *** The quarterly and the monthly column *)

Lemma quarter_name_lookup (q : Z) :
  1 <= q < 1 + 4 ->
  getitem ["Q1"; "Q2"; "Q3"; "Q4"]%string (q - 1) = Ok (quarter_name q).
Proof. revert q. refine (range_enum 1 4 _ _). vm_compute. reflexivity. Qed.

Lemma month_name_lookup (m : Z) :
  1 <= m < 1 + 12 -> LayoutManager.get_month_abbreviation m = Ok (month_name m).
Proof. revert m. refine (range_enum 1 12 _ _). vm_compute. reflexivity. Qed.

Lemma draw_quarterly_column_writes :
  writes (GoalTrackerPDF.draw_quarterly_column self) tt (quarterly_trace self).
Proof.
  destruct rendered_columns as (pos & wd & cb & Hpos & Hwd & Hnames & _).
  unfold GoalTrackerPDF.draw_quarterly_column.
  rewrite Hpos, Hwd, rendered_layout.
  fold (row_height_of self). fold (label_padding self).
  eapply writes_eq.
  - repeat render_head.
    apply writes_for. intros q Hq. apply elem_of_seqZ in Hq.
    rewrite (quarter_name_lookup q) by exact Hq.
    eapply writes_eq.
    + repeat render_head.
      apply (writes_for_acc _ _ (fun y _ => (y - row_height_of self)%Q)
               (fun y round =>
                  if round =? 0 then []
                  else draw_stroke self (5 # 10) "text"
                         (rule self "quarterly" y))).
      intros y round. eapply writes_eq; [repeat render_step|].
      destruct (round =? 0); reflexivity.
    + cbn [app]. rewrite app_nil_r. reflexivity.
  - reflexivity.
Qed.


Lemma draw_monthly_column_writes :
  writes (GoalTrackerPDF.draw_monthly_column self) tt (monthly_trace self).
Proof.
  destruct rendered_columns as (pos & wd & cb & Hpos & Hwd & Hnames & _).
  unfold GoalTrackerPDF.draw_monthly_column.
  rewrite Hpos, Hwd, rendered_layout.
  fold (row_height_of self). fold (label_padding self).
  destruct GoalTrackerPDF.build_month_lines as [lines|] eqn:Hlines;
    [|rewrite build_month_lines_value in Hlines; discriminate].
  eapply writes_eq.
  - repeat render_head.
    apply writes_for. intros m Hm. apply elem_of_seqZ in Hm.
    rewrite (month_lines_lookup lines m Hlines) by exact Hm.
    apply writes_lift_bind. cbv beta match.
    change (getitem [month_start m; month_start m + 1; month_start m + 2;
                     month_start m + 3] 0)
      with (Ok (month_start m)).
    rewrite (month_name_lookup m) by exact Hm.
    eapply writes_eq.
    + repeat render_head.
      apply (writes_for_acc _ _ (fun y _ => (y - row_height_of self)%Q)
               (fun y round =>
                  if (fun _ : Z => false) round then []
                  else draw_stroke self (5 # 10) "text"
                         (rule self "monthly" y))).
      intros y round. eapply writes_eq; [repeat render_step|]. reflexivity.
    + cbn [app]. rewrite app_nil_r. reflexivity.
  - reflexivity.
Qed.

(** The lines of a run of writing lines: one per round that is not
    skipped, each one row height below the last. *)
Lemma rules_trace_reads {A} (name : string) (skip : A -> bool)
    (rounds : list A) (y : Q) :
  outlines (rules_trace self name skip rounds y) = []
  /\ fills (rules_trace self name skip rounds y) = []
  /\ labels (rules_trace self name skip rounds y) = []
  /\ Forall2
       (fun i stroke =>
          stroke = rule self name
                     (Nat.iter i (fun y => y - row_height_of self)%Q y))
       (omap (fun '(i, round) => if skip round then None else Some i)
             (imap (fun i round => (i, round)) rounds))
       (strokes (rules_trace self name skip rounds y)).
Proof.
  unfold rules_trace.
  assert (Hgen : forall n,
    outlines (scan_calls (fun y _ => (y - row_height_of self)%Q)
                (fun y round => if skip round then []
                   else draw_stroke self (5 # 10) "text" (rule self name y))
                rounds (Nat.iter n (fun y => y - row_height_of self)%Q y)) = []
    /\ fills (scan_calls (fun y _ => (y - row_height_of self)%Q)
                (fun y round => if skip round then []
                   else draw_stroke self (5 # 10) "text" (rule self name y))
                rounds (Nat.iter n (fun y => y - row_height_of self)%Q y)) = []
    /\ labels (scan_calls (fun y _ => (y - row_height_of self)%Q)
                (fun y round => if skip round then []
                   else draw_stroke self (5 # 10) "text" (rule self name y))
                rounds (Nat.iter n (fun y => y - row_height_of self)%Q y)) = []
    /\ Forall2
         (fun i stroke =>
            stroke = rule self name
                       (Nat.iter i (fun y => y - row_height_of self)%Q y))
         (omap (fun '(i, round) => if skip round then None else Some i)
               (imap (fun i round => ((n + i)%nat, round)) rounds))
         (strokes (scan_calls (fun y _ => (y - row_height_of self)%Q)
                (fun y round => if skip round then []
                   else draw_stroke self (5 # 10) "text" (rule self name y))
                rounds (Nat.iter n (fun y => y - row_height_of self)%Q y)))).
  { induction rounds as [|round rounds IH]; intros n.
    - repeat split; constructor.
    - cbn [scan_calls]. rewrite outlines_app, fills_app, labels_app, strokes_app.
      destruct (IH (S n)) as (Ho & Hf & Hl & Hs).
      rewrite Nat.iter_succ in Ho, Hf, Hl, Hs.
      rewrite Ho, Hf, Hl. cbn [imap omap list_omap].
      rewrite Nat.add_0_r.
      assert (Hshift : imap ((fun i round => ((n + i)%nat, round)) ∘ S) rounds
                       = imap (fun i round => ((S n + i)%nat, round)) rounds).
      { apply imap_ext. intros i x _. cbn. f_equal. lia. }
      rewrite Hshift.
      destruct (skip round).
      + split; [reflexivity|]. split; [reflexivity|]. split; [reflexivity|].
        exact Hs.
      + rewrite (proj1 (read_stroke _ _ _ _)),
          (proj1 (proj2 (read_stroke _ _ _ _))),
          (proj1 (proj2 (proj2 (read_stroke _ _ _ _)))),
          (proj2 (proj2 (proj2 (read_stroke _ _ _ _)))).
        split; [reflexivity|]. split; [reflexivity|]. split; [reflexivity|].
        constructor; [reflexivity | exact Hs]. }
  exact (Hgen 0%nat).
Qed.


Lemma strokes_bind {A} (xs : list A) (f : A -> list Canvas.call) :
  strokes (xs ≫= f) = xs ≫= fun x => strokes (f x).
Proof. apply omap_bind. Qed.

Lemma labels_bind {A} (xs : list A) (f : A -> list Canvas.call) :
  labels (xs ≫= f) = xs ≫= fun x => labels (f x).
Proof. apply omap_bind. Qed.







(** *** The header *)

Lemma draw_header_writes :
  writes (GoalTrackerPDF.draw_header self) tt (header_trace self).
Proof.
  destruct rendered_columns as (pos & wd & cb & Hpos & Hwd & Hnames & _).
  unfold GoalTrackerPDF.draw_header.
  rewrite Hpos, Hwd.
  eapply writes_eq; [repeat render_step|].
  unfold header_trace, draw_stroke, goal_line, header_split, title_y,
    header_top, grid_right.
  cbn [app]. reflexivity.
Qed.

Lemma rendered_year : GoalTrackerPDF.year self = year.
Proof. now destruct (pdf_init_inv _ _ _ Hinit) as (_ & -> & _). Qed.


(** *** The weekly column *)





Section Weekly.

Variable stringWidth : string -> string -> Z -> Q.
Hypothesis Hyear : 1 <= year <= 9999.

Lemma row_date_range_label (row : Z) :
  1 <= row <= 52 ->
  exists monday friday,
    GoalTrackerPDF.row_date_range (of_ordinal (week1_monday year))
      (start_iso_week year) row
    = Ok (monday, friday, row_label year row)
    /\ GoalTrackerPDF.date_range_for_row year row
       = Ok (monday, friday, row_label year row).
Proof.
  intros Hrow.
  pose proof (date_range_for_row_value year row Hyear Hrow) as Hv.
  cbv zeta in Hv.
  remember (of_ordinal
              (week1_monday year + 7 * (start_iso_week year + row - 1 - 1)))
    as monday eqn:Hmonday.
  remember (of_ordinal
              (week1_monday year + 7 * (start_iso_week year + row - 1 - 1) + 4))
    as friday eqn:Hfriday.
  remember (str (day monday) +:+ "-" +:+ str (day friday))%string
    as day_range eqn:Hday_range.
  clear Hmonday Hfriday Hday_range.
  assert (Hlabel : row_label year row = day_range)
    by (unfold row_label; rewrite Hv; reflexivity).
  rewrite Hlabel. exists monday, friday. split; [|exact Hv].
  unfold GoalTrackerPDF.date_range_for_row in Hv.
  rewrite iso_anchor_value, bind_ok in Hv by exact Hyear.
  exact Hv.
Qed.

(** Steps over a lookup that draws nothing. *)
Ltac render_pure :=
  lazymatch goal with
  | |- writes (Canvas.lift (dict_getitem (GoalTrackerPDF.colors _) ?name) ≫= _)
         _ _ =>
      rewrite (rendered_colour name ltac:(in_names));
      apply writes_lift_bind; cbv beta
  | Hn : (forall name, name ∈ column_names -> _)
    |- writes (Canvas.lift (dict_getitem ?d ?name) ≫= _) _ _ =>
      first [ rewrite (proj1 (Hn name ltac:(in_names)))
            | rewrite (proj2 (Hn name ltac:(in_names))) ];
      apply writes_lift_bind; cbv beta
  | |- writes (Canvas.lift (Ok _) ≫= _) _ _ =>
      apply writes_lift_bind; cbv beta match
  end.

Lemma draw_weekly_column_writes :
  writes (GoalTrackerPDF.draw_weekly_column stringWidth self) tt
    (weekly_trace stringWidth self).
Proof.
  destruct rendered_columns as (pos & wd & cb & Hpos & Hwd & Hnames & _).
  unfold GoalTrackerPDF.draw_weekly_column, weekly_trace.
  rewrite Hpos, Hwd, rendered_layout, rendered_year.
  rewrite iso_anchor_value by exact Hyear.
  fold (row_height_of self). fold (label_padding self).
  repeat render_pure.
  apply writes_for. intros row Hrow. apply elem_of_seqZ in Hrow.
  destruct (row_date_range_label row ltac:(lia)) as (mo & fr & Hrange & _).
  rewrite Hrange. clear Hrange.
  repeat render_pure.
  apply (writes_bind _ _ tt _ tt); [apply draw_text_writes|].
  destruct (LayoutManager.is_catch_up_week row); [|apply writes_ret].
  rewrite get_quarter_for_week_value.
  repeat render_pure.
  apply draw_text_writes.
Qed.

Lemma weekly_trace_reads :
  outlines (weekly_trace stringWidth self) = []
  /\ fills (weekly_trace stringWidth self) = []
  /\ strokes (weekly_trace stringWidth self) = []
  /\ labels (weekly_trace stringWidth self)
     = range 1 53 ≫= fun row =>
         (day_label_x self
            (stringWidth (row_label year row)
               (family (GoalTrackerPDF.font_config self))
               (week_number_size (GoalTrackerPDF.font_config self) - 1)),
          label_y self (row_top self row), row_label year row)
         :: (if LayoutManager.is_catch_up_week row
             then [((column_x self "weekly" + (43 # 100) * inch)%Q,
                    label_y self (row_top self row),
                    GoalTrackerPDF.catch_up_text ((row - 1) / 13 + 1))]
             else []).
Proof.
  unfold weekly_trace. rewrite rendered_year.
  split; [|split; [|split]].
  - apply read_none. intros row. rewrite read_app.
    destruct (LayoutManager.is_catch_up_week row); reflexivity.
  - apply read_none. intros row. rewrite read_app.
    destruct (LayoutManager.is_catch_up_week row); reflexivity.
  - apply read_none. intros row. rewrite read_app.
    destruct (LayoutManager.is_catch_up_week row); reflexivity.
  - rewrite labels_bind. apply bind_ext_all. intros row.
    rewrite labels_app.
    destruct (LayoutManager.is_catch_up_week row); reflexivity.
Qed.


End Weekly.


(** *** The whole page *)

Lemma no_save_bind {A} (xs : list A) (f : A -> list Canvas.call) :
  (forall x, Canvas.save ∉ f x) -> Canvas.save ∉ xs ≫= f.
Proof.
  intros H Hin. apply list_elem_of_bind in Hin as (x & Hin & _).
  exact (H x Hin).
Qed.

Lemma no_save_text text (x y : Q) font size (color : Z * Z * Z) align :
  Canvas.save ∉ text_calls text x y font size color align.
Proof.
  unfold text_calls. intros Hin.
  repeat (apply elem_of_cons in Hin as [Hin | Hin];
          [destruct (String.eqb align "right"); discriminate Hin|]).
  now apply elem_of_nil in Hin.
Qed.

Lemma no_save_rect sw key (box : Q * Q * Q * Q) :
  Canvas.save ∉ draw_rect self sw key box.
Proof.
  destruct box as [[[x y] w] h]. unfold draw_rect, rectangle_calls. intros Hin.
  repeat (apply elem_of_cons in Hin as [Hin | Hin]; [discriminate Hin|]).
  now apply elem_of_nil in Hin.
Qed.

Lemma no_save_stroke sw key (stroke : Q * Q * Q * Q) :
  Canvas.save ∉ draw_stroke self sw key stroke.
Proof.
  destruct stroke as [[[x1 y1] x2] y2]. unfold draw_stroke, line_calls.
  cbn [DrawingHelper.has_dash app]. intros Hin.
  repeat (apply elem_of_cons in Hin as [Hin | Hin]; [discriminate Hin|]).
  now apply elem_of_nil in Hin.
Qed.

Lemma no_save_stripe (box : Q * Q * Q * Q) :
  Canvas.save ∉ draw_stripe self box.
Proof.
  destruct box as [[[x y] w] h]. unfold draw_stripe, stripe_calls. intros Hin.
  repeat (apply elem_of_cons in Hin as [Hin | Hin]; [discriminate Hin|]).
  now apply elem_of_nil in Hin.
Qed.

Lemma no_save_rules {A} name (skip : A -> bool) (rounds : list A) (y : Q) :
  Canvas.save ∉ rules_trace self name skip rounds y.
Proof.
  unfold rules_trace. revert y.
  induction rounds as [|round rounds IH]; intros y; cbn [scan_calls].
  - apply not_elem_of_nil.
  - apply not_elem_of_app. split; [|apply IH].
    destruct (skip round); [apply not_elem_of_nil|apply no_save_stroke].
Qed.

Lemma no_save_before_weekly : Canvas.save ∉ before_weekly_trace self.
Proof.
  unfold before_weekly_trace, header_trace, grid_trace, stripes_trace,
    week_lines_trace, quarter_boxes_trace, month_boxes_trace, quarterly_trace,
    monthly_trace.
  repeat lazymatch goal with
         | |- _ ∉ _ ++ _ => apply not_elem_of_app; split
         end;
    try apply no_save_text; try apply no_save_stroke.
  - destruct (stripes_on self); [|apply not_elem_of_nil].
    apply no_save_bind. intros week. apply not_elem_of_app.
    split; [destruct (month_striped week)|destruct (week_striped week)];
      first [apply no_save_stripe | apply not_elem_of_nil].
  - apply no_save_bind. intros week. apply no_save_stroke.
  - apply no_save_bind. intros q. apply no_save_rect.
  - apply no_save_bind. intros m. apply no_save_rect.
  - apply no_save_bind. intros q. apply not_elem_of_app.
    split; [apply no_save_text|apply no_save_rules].
  - apply no_save_bind. intros m. apply not_elem_of_app.
    split; [apply no_save_text|apply no_save_rules].
Qed.

Lemma rules_trace_count {A} name (skip : A -> bool) (rounds : list A) (y : Q) :
  length (strokes (rules_trace self name skip rounds y))
  = length (filter (fun round => skip round = false) rounds).
Proof.
  destruct (rules_trace_reads name skip rounds y) as (_ & _ & _ & Hs).
  apply Forall2_length in Hs. rewrite <- Hs. clear Hs.
  enough (Hgen : forall h : nat -> nat,
    length (omap (fun '(i, round) => if skip round then None else Some i)
              (imap (fun i round => (h i, round)) rounds))
    = length (filter (fun round => skip round = false) rounds))
    by exact (Hgen (fun i => i)).
  induction rounds as [|round rounds IH]; intros h; [reflexivity|].
  cbn [imap omap list_omap]. destruct (skip round) eqn:E.
  - rewrite filter_cons_False by (rewrite E; discriminate).
    apply (IH (fun i => h (S i))).
  - rewrite filter_cons_True by exact E. cbn [length]. f_equal.
    apply (IH (fun i => h (S i))).
Qed.

(** What is on the page before the weekly column, kind by kind. *)
Lemma before_weekly_counts :
  length (outlines (before_weekly_trace self)) = 16%nat
  /\ length (strokes (before_weekly_trace self)) = 122%nat
  /\ length (labels (before_weekly_trace self)) = 18%nat
  /\ length (fills (before_weekly_trace self))
     = (if stripes_on self then 50 else 0)%nat.
Proof.
  destruct grid_trace_reads as (Hgo & Hgs & Hgl & Hgf & _).
  unfold before_weekly_trace.
  rewrite !outlines_app, !strokes_app, !labels_app, !fills_app, !length_app.
  rewrite Hgo, Hgs, Hgl, Hgf.
  assert (Hq :
    length (outlines (quarterly_trace self)) = 0%nat
    /\ length (strokes (quarterly_trace self)) = 20%nat
    /\ length (labels (quarterly_trace self)) = 4%nat
    /\ length (fills (quarterly_trace self)) = 0%nat).
  { unfold quarterly_trace, column_label. split; [|split; [|split]].
    - unfold outlines. rewrite read_none; [reflexivity|].
      intros q. rewrite read_app. fold outlines.
      rewrite (proj1 (read_text _ _ _ _ _ _ _)).
      apply (rules_trace_reads "quarterly").
    - rewrite strokes_bind.
      rewrite (length_bind_ext _ _ (fun _ : Z => [tt; tt; tt; tt; tt]));
        [reflexivity|].
      intros q. rewrite strokes_app, length_app.
      rewrite (proj1 (proj2 (proj2 (read_text _ _ _ _ _ _ _)))).
      rewrite rules_trace_count. reflexivity.
    - rewrite labels_bind.
      rewrite (length_bind_ext _ _ (fun _ : Z => [tt])); [reflexivity|].
      intros q. rewrite labels_app, length_app.
      rewrite (proj2 (proj2 (proj2 (read_text _ _ _ _ _ _ _)))).
      rewrite (proj1 (proj2 (proj2 (rules_trace_reads "quarterly" _ _ _)))).
      reflexivity.
    - unfold fills. rewrite read_none; [reflexivity|].
      intros q. rewrite read_app. fold fills.
      rewrite (proj1 (proj2 (read_text _ _ _ _ _ _ _))).
      apply (rules_trace_reads "quarterly"). }
  assert (Hm :
    length (outlines (monthly_trace self)) = 0%nat
    /\ length (strokes (monthly_trace self)) = 48%nat
    /\ length (labels (monthly_trace self)) = 12%nat
    /\ length (fills (monthly_trace self)) = 0%nat).
  { unfold monthly_trace, column_label. split; [|split; [|split]].
    - unfold outlines. rewrite read_none; [reflexivity|].
      intros m. rewrite read_app. fold outlines.
      rewrite (proj1 (read_text _ _ _ _ _ _ _)).
      apply (rules_trace_reads "monthly").
    - rewrite strokes_bind.
      rewrite (length_bind_ext _ _ (fun _ : Z => [tt; tt; tt; tt]));
        [reflexivity|].
      intros m. rewrite strokes_app, length_app.
      rewrite (proj1 (proj2 (proj2 (read_text _ _ _ _ _ _ _)))).
      rewrite rules_trace_count. reflexivity.
    - rewrite labels_bind.
      rewrite (length_bind_ext _ _ (fun _ : Z => [tt])); [reflexivity|].
      intros m. rewrite labels_app, length_app.
      rewrite (proj2 (proj2 (proj2 (read_text _ _ _ _ _ _ _)))).
      rewrite (proj1 (proj2 (proj2 (rules_trace_reads "monthly" _ _ _)))).
      reflexivity.
    - unfold fills. rewrite read_none; [reflexivity|].
      intros m. rewrite read_app. fold fills.
      rewrite (proj1 (proj2 (read_text _ _ _ _ _ _ _))).
      apply (rules_trace_reads "monthly"). }
  destruct Hq as (-> & -> & -> & ->). destruct Hm as (-> & -> & -> & ->).
  rewrite !length_app, !length_fmap.
  split; [reflexivity|]. split; [reflexivity|]. split; [reflexivity|].
  destruct (stripes_on self); [|reflexivity].
  rewrite (length_bind_ext _ _
             (fun week =>
                (if month_striped week then [tt] else [])
                ++ (if week_striped week then [tt] else []))).
  - vm_compute. reflexivity.
  - intros week. unfold week_stripes. rewrite !length_app.
    destruct (month_striped week), (week_striped week); reflexivity.
Qed.

Lemma before_weekly_writes :
  writes (GoalTrackerPDF.draw_header self;;
          GoalTrackerPDF.draw_grid self;;
          GoalTrackerPDF.draw_quarterly_column self;;
          GoalTrackerPDF.draw_monthly_column self) tt
    (before_weekly_trace self).
Proof.
  unfold before_weekly_trace.
  apply (writes_bind _ _ tt _ tt); [apply draw_header_writes|].
  apply (writes_bind _ _ tt _ tt); [apply draw_grid_writes|].
  apply (writes_bind _ _ tt _ tt); [apply draw_quarterly_column_writes|].
  apply draw_monthly_column_writes.
Qed.


Section Page.

Variable stringWidth : string -> string -> Z -> Q.
Hypothesis Hyear : 1 <= year <= 9999.

(** X15: for a year in 1..9999 [generate] runs the six renderers in the
    order header, grid, quarterly, monthly, weekly, checkbox, each writing
    what it writes on its own, and then saves the canvas, once and as the
    last call.  The page holds 68 outlined rectangles (16 boxes of the grid
    and 52 checkboxes), 122 lines, 74 texts, and 50 stripes when
    [show_row_stripes] is set and none otherwise. *)
Theorem generate_draws_the_page :
  exists kh kg kq km kw kc,
    writes (GoalTrackerPDF.draw_header self) tt kh
    /\ writes (GoalTrackerPDF.draw_grid self) tt kg
    /\ writes (GoalTrackerPDF.draw_quarterly_column self) tt kq
    /\ writes (GoalTrackerPDF.draw_monthly_column self) tt km
    /\ writes (GoalTrackerPDF.draw_weekly_column stringWidth self) tt kw
    /\ writes (GoalTrackerPDF.draw_checkbox_column self) tt kc
    /\ writes (GoalTrackerPDF.generate stringWidth self) tt
         ((kh ++ kg ++ kq ++ km ++ kw ++ kc) ++ [Canvas.save])
    /\ (Canvas.save ∉ kh ++ kg ++ kq ++ km ++ kw ++ kc)
    /\ length (outlines (kh ++ kg ++ kq ++ km ++ kw ++ kc)) = 68%nat
    /\ length (strokes (kh ++ kg ++ kq ++ km ++ kw ++ kc)) = 122%nat
    /\ length (labels (kh ++ kg ++ kq ++ km ++ kw ++ kc)) = 74%nat
    /\ length (fills (kh ++ kg ++ kq ++ km ++ kw ++ kc))
       = (if truthy (dict_get (GoalTrackerPDF.layout_config self)
                       "show_row_stripes"%string 0%Q)
          then 50 else 0)%nat.
Proof.
  exists (header_trace self), (grid_trace self), (quarterly_trace self),
    (monthly_trace self), (weekly_trace stringWidth self),
    (checkbox_trace self).
  pose proof draw_header_writes as Hh. pose proof draw_grid_writes as Hg.
  pose proof draw_quarterly_column_writes as Hq.
  pose proof draw_monthly_column_writes as Hm.
  pose proof (draw_weekly_column_writes stringWidth Hyear) as Hw.
  pose proof draw_checkbox_column_writes as Hc.
  split; [exact Hh|]. split; [exact Hg|]. split; [exact Hq|].
  split; [exact Hm|]. split; [exact Hw|]. split; [exact Hc|].
  assert (Hall :
    header_trace self ++ grid_trace self ++ quarterly_trace self
    ++ monthly_trace self ++ weekly_trace stringWidth self
    ++ checkbox_trace self
    = before_weekly_trace self
      ++ (weekly_trace stringWidth self ++ checkbox_trace self)).
  { unfold before_weekly_trace. rewrite <- !app_assoc. reflexivity. }
  split.
  { unfold GoalTrackerPDF.generate. rewrite <- !app_assoc.
    apply (writes_bind _ _ tt _ tt _ Hh).
    apply (writes_bind _ _ tt _ tt _ Hg).
    apply (writes_bind _ _ tt _ tt _ Hq).
    apply (writes_bind _ _ tt _ tt _ Hm).
    apply (writes_bind _ _ tt _ tt _ Hw).
    apply (writes_bind _ _ tt _ tt _ Hc).
    apply writes_emit. }
  rewrite Hall.
  destruct before_weekly_counts as (Ho & Hs & Hl & Hf).
  destruct (weekly_trace_reads stringWidth) as (Hwo & Hwf & Hws & Hwl).
  assert (Hwn : length (labels (weekly_trace stringWidth self)) = 56%nat).
  { rewrite Hwl.
    rewrite (length_bind_ext _ _
               (fun row =>
                  tt :: (if LayoutManager.is_catch_up_week row
                         then [tt] else []))).
    - vm_compute. reflexivity.
    - intros row. destruct (LayoutManager.is_catch_up_week row); reflexivity. }
  assert (Hcn :
    length (outlines (checkbox_trace self)) = 52%nat
    /\ strokes (checkbox_trace self) = []
    /\ labels (checkbox_trace self) = []
    /\ fills (checkbox_trace self) = []).
  { unfold checkbox_trace. split; [|split; [|split]].
    - unfold outlines.
      rewrite (read_each _ _ _ (checkbox_box self))
        by (intros week; apply read_rect).
      rewrite length_fmap. reflexivity.
    - apply read_none. intros week. apply read_rect.
    - apply read_none. intros week. apply read_rect.
    - apply read_none. intros week. apply read_rect. }
  destruct Hcn as (Hco & Hcs & Hcl & Hcf).
  rewrite !outlines_app, !strokes_app, !labels_app, !fills_app, !length_app.
  rewrite Ho, Hs, Hl, Hf, Hwo, Hwf, Hws, Hwn, Hco, Hcs, Hcl, Hcf.
  fold (stripes_on self).
  split; [|split; [reflexivity|split; [reflexivity|split; [reflexivity|]]]].
  - apply not_elem_of_app. split; [apply no_save_before_weekly|].
    apply not_elem_of_app. unfold weekly_trace, checkbox_trace.
    split; apply no_save_bind.
    + intros row. apply not_elem_of_app. split; [apply no_save_text|].
      destruct (LayoutManager.is_catch_up_week row);
        [apply no_save_text|apply not_elem_of_nil].
    + intros week. apply no_save_rect.
  - destruct (stripes_on self); reflexivity.
Qed.

End Page.

End Rendered.

(** ** The renderers on the test suite's configuration *)




Lemma stripes_only_when_enabled_witness :
  exists self ks,
    GoalTrackerPDF.__init__ test_config 2024 = Ok self
    /\ has_columns (GoalTrackerPDF.layout_config self) = true
    /\ writes (GoalTrackerPDF.draw_grid self) tt ks
    /\ fills ks = [].
Proof.
  eexists.
  refine (let H := stripes_only_when_enabled test_config 2024 _
                     eq_refl eq_refl in _).
  destruct H as (ks_stripes & ks_rest & Hwrites & Hrest & _ & _ & Hoff & _).
  exists (ks_stripes ++ ks_rest). split; [reflexivity|]. split; [reflexivity|].
  split; [exact Hwrites|].
  rewrite (Hoff eq_refl). exact Hrest.
Defined.








Lemma generate_draws_the_page_witness :
  exists self ks,
    GoalTrackerPDF.__init__ test_config 2024 = Ok self
    /\ has_columns (GoalTrackerPDF.layout_config self) = true
    /\ 1 <= 2024 <= 9999
    /\ writes (GoalTrackerPDF.generate mock_width self) tt
         (ks ++ [Canvas.save])
    /\ length (outlines ks) = 68%nat.
Proof.
  eexists.
  refine (let H := generate_draws_the_page test_config 2024 _ eq_refl eq_refl
                     mock_width ltac:(lia) in _).
  destruct H as (kh & kg & kq & km & kw & kc & _ & _ & _ & _ & _ & _
                 & Hwrites & _ & Houtlines & _).
  exists (kh ++ kg ++ kq ++ km ++ kw ++ kc).
  split; [reflexivity|]. split; [reflexivity|]. split; [lia|].
  split; [exact Hwrites | exact Houtlines].
Defined.

(** ** Renderers without column widths *)

(** X16: the constructor does not look at the column widths, but with one
    of the four width keys missing from the layout every renderer, and so
    [generate], raises KeyError before the first call on the canvas. *)
Theorem renderers_need_the_column_widths
    (config : GoalTrackerConfig.t) (year : Z) (self : GoalTrackerPDF.t)
    (stringWidth : string -> string -> Z -> Q) (c : Canvas.t) :
  GoalTrackerPDF.__init__ config year = Ok self ->
  has_columns (GoalTrackerPDF.layout_config self) = false ->
  GoalTrackerPDF.draw_header self c = (Raise KeyError, c)
  /\ GoalTrackerPDF.draw_grid self c = (Raise KeyError, c)
  /\ GoalTrackerPDF.draw_quarterly_column self c = (Raise KeyError, c)
  /\ GoalTrackerPDF.draw_monthly_column self c = (Raise KeyError, c)
  /\ GoalTrackerPDF.draw_weekly_column stringWidth self c = (Raise KeyError, c)
  /\ GoalTrackerPDF.draw_checkbox_column self c = (Raise KeyError, c)
  /\ GoalTrackerPDF.generate stringWidth self c = (Raise KeyError, c).
Proof.
  intros Hinit Hcols.
  destruct (pdf_init_inv _ _ _ Hinit) as (_ & _ & _ & _ & _ & _ & _ & Hlc & _).
  rewrite <- Hlc in Hcols.
  destruct (columns_missing _ Hcols) as [Hpos _].
  assert (Hheader : forall c',
            GoalTrackerPDF.draw_header self c' = (Raise KeyError, c')).
  { intros c'. unfold GoalTrackerPDF.draw_header. rewrite Hpos.
    apply raise_bind. }
  split; [apply Hheader|].
  split; [unfold GoalTrackerPDF.draw_grid; rewrite Hpos; apply raise_bind|].
  split; [unfold GoalTrackerPDF.draw_quarterly_column; rewrite Hpos;
          apply raise_bind|].
  split; [unfold GoalTrackerPDF.draw_monthly_column; rewrite Hpos;
          apply raise_bind|].
  split; [unfold GoalTrackerPDF.draw_weekly_column; rewrite Hpos;
          apply raise_bind|].
  split; [unfold GoalTrackerPDF.draw_checkbox_column; rewrite Hpos;
          apply raise_bind|].
  unfold GoalTrackerPDF.generate. apply raises_bind, Hheader.
Qed.

Lemma renderers_need_the_column_widths_witness :
  exists self,
    GoalTrackerPDF.__init__ bare_config 2024 = Ok self
    /\ has_columns (GoalTrackerPDF.layout_config self) = false
    /\ GoalTrackerPDF.generate mock_width self [] = (Raise KeyError, []).
Proof.
  eexists. split; [reflexivity|]. split; [reflexivity|].
  apply (renderers_need_the_column_widths bare_config 2024 _ mock_width []
           eq_refl eq_refl).
Defined.

(** ** The configuration *)










